(* ===== verification/_CoqProject ===== *)
-Q . S2P
Prelude.v
Datetime.v
Calendar.v
Numeric.v
Frame.v
Preprocess.v
GroupBy.v
Widgets.v
Breakdown.v
BreakdownSpec.v
Trend.v
SiteAverage.v
Subtype.v
Dashboard.v
