(* ===== verification/Prelude.v ===== *)
(** * A verified model of the DXC analytics dashboard

    The program, [src/DXC_Analytics.py], is one Streamlit script.  Each
    run creates the session key ['selection'] (lines 16-17) and draws the
    title.  It then fetches every row of the Supabase table
    [live_dispatches] into a pandas DataFrame (lines 20-30).  An empty
    table shows a warning (line 286).  Otherwise the script normalises
    three columns (lines 35-41) and draws four sections separated by rules:
    - the Monthly Breakdown (44-89);
    - the Monthly Trend Analysis (94-124);
    - the Average Ticket Count per Site & Month (129-178);
    - the Subtype & Site Breakdown (183-283).
    Streamlit reruns the whole script on every widget change.  The session
    state outlives a run: it holds ['selection'] and the values of the two
    selectors created with a [key] (lines 47 and 248).

    This development is a shallow embedding of that script:
    - pandas operations are pure functions;
    - an exception is a value of the [result] type defined below;
    - a run is a function to the list of page elements it draws, paired
      with its outcome (the [render] type of [Widgets]), so an exception
      keeps what was drawn before it;
    - the reruns are a step function on the session state, and the sessions
      a browser tab can reach are an inductive predicate.
    Every definition is executable; the examples are evaluated by
    [vm_compute].

    ** Files

    - [Prelude] (this file): errors and their monad, rational means,
      bounded exhaustive checks, and the shared lemmas on lists and strings.
    - [Datetime]: [datetime64[ns]] as a [Z] count of nanoseconds with NaT
      as [None], within the bounds [-2^63+1, 2^63-1].  It holds:
      - the proleptic Gregorian calendar ([days_from_civil],
        [civil_from_days], era-based);
      - the ISO-8601 parser of [pd.to_datetime] ([parse_iso],
        [to_datetime_str]), which also records each string's shape;
      - the month key of line 41 ([month_year_str]) and the ['%m/%y']
        label of line 102 ([month_label]).
    - [Calendar]: the reference calendar counted one day at a time
      ([next_date]), the proof that the closed form agrees with it, and
      the range of years of a [datetime64[ns]] timestamp.
    - [Numeric]: the JSON values of a row ([json]), and
      [pd.to_numeric(errors='coerce').fillna(0)] of line 38 ([hours_value]).
    - [Frame]: the fetched table ([fetch_data], [df_empty], [get_column],
      with [KeyError] for a missing column).
    - [Preprocess]: lines 35-41 ([preprocess]).  pandas 2 infers one
      format from the first non-null string ([guess_format]).  The result
      has one [dispatch] row per fetched row.
    - [GroupBy]: a Section generic in the row type.  It models
      [groupby(key).agg(...)] with [sort=True] and [dropna=True], and the
      ['count'] and ['mean'] aggregations ([agg_table]).
    - [Widgets]: the Streamlit model:
      - the page elements, and [st.selectbox] ([selectbox]);
      - Python's [sorted], and the formats [str(int)] and [f"{x:.2f}"];
      - the [render] monad;
      - the session state ([session], [init_selection], [chart_selection]).
    - [Breakdown], [Trend], [SiteAverage] and [Subtype]: the four sections
      ([section_breakdown], [section_trend], [section_site_average],
      [section_subtype]).  Each section is the sequence of elements the
      code draws, with the same guards and exceptions.
    - [BreakdownSpec]: the spec's [monthlyBreakdown] as an abstract
      contract, with the per-site counts as a finite map ([gmap]), and the
      refinement proof that Section 1 implements it.
    - [Dashboard]: the whole run ([dashboard]), and the session after a
      run ([after_run]).  User events are [ui_event]: reruns, picks in the
      keyed selectors, and pie clicks.  [step] applies an event, and
      [reachable] holds for the sessions a tab can reach.

    ** What is proved

    - Calendar and parsing:
      - the two calendar conversions are inverse
        ([civil_from_days_of_civil], [days_from_civil_of_days]);
      - the month key of a parsed timestamp is the text's own [YYYY-MM]
        ([month_key_of_parsed]);
      - decimal text in [Hours] reads back as its value
        ([parse_decimal_text]).
    - Pre-processing:
      - each row's Hours is its own cell's number, 0 when the cell is not
        a number or the column is absent, and a negative number is kept
        ([preprocess_hours]);
      - it fails on a missing [CheckInDate] ([preprocess_missing_date]);
      - it fails on date strings of mixed ISO shapes
        ([to_datetime_mixed_shapes]).
    - Sections, functional behaviour:
      - the per-site counts add up to the total ([site_counts_sum_total]);
      - the trend totals add up to the dated tickets ([trend_total_sum]);
      - the trend's months are exactly those from the first dated month
        to the last, in order ([trend_months_exact]);
      - the pie counts add up to the dated tickets with a subtype and an
        item ([subtype_counts_sum]);
      - the per-site average is an average of per-month counts
        ([avg_tickets_two_stage]).
    - Behaviours the code has and the spec does not describe:
      - a null date puts "NaT" first in the month selector
        ([default_month_NaT]) and last in the per-month chart
        ([tickets_by_month_NaT_last]);
      - the trend has rows for empty months ([trend_gap_month]);
      - its x axis is out of order across a year boundary
        ([trend_axis_year_wrap]);
      - the "No site data" message is unreachable
        ([no_site_msg_unreachable]).
    - The whole run and the session:
      - an empty table shows only the title and the warning
        ([empty_table_warning]);
      - a missing [Site] column raises at line 74, and the page is exactly
        the title and Section 1 up to the chart's subheader
        ([missing_site_error_order]);
      - a non-empty table without any date crashes in Section 2, where
        [pd.Grouper] raises [ValueError] on NaT bin edges
        ([all_dates_null_raise]);
      - in every reachable session the chart selection reads [None]
        ([chart_selection_dead]), by induction on [reachable].

    - Against abstract references:
      - the closed-form calendar equals day-by-day counting
        ([civil_from_days_iter]);
      - every date of a pre-processed row is in range, with a year in
        1677-2262 and a month in 1-12 ([preprocess_dates_bounded], from
        [year_of_ns_bounds] of [Calendar]);
      - Section 1 refines the spec's [monthlyBreakdown]
        ([section_breakdown_refines]).
    - Whole runs across the session:
      - on a table with the five columns whose dates convert and which
        has a dated ticket, a run from any reachable session raises no
        exception ([dashboard_no_exception]);
      - a subtype picked in the keyed selector is shown by the next run
        and kept in the session ([pick_subtype_kept]).
    The no-exception proofs use [returns], a postcondition on the
    [render] monad with a bind rule, and the tactic [returns_steps]
    (Widgets.v).

    ** Bounds and checks

    No definition uses fuel: every recursion is structural.  The
    digit readers are bounded by the widths of the ISO fields.  Four facts
    are checked exhaustively by [vm_compute] over finite ranges:
    - the 256 ASCII codes for the digit functions;
    - every (year-of-era, month, day) of one 400-year era;
    - every day of an era (146097 days), for the inverse;
    - every day of an era again, for the successor step of [Calendar].
    The 400-year periodicity of the calendar extends the era checks to all
    of [Z].  The witnesses evaluate the definitions on small tables,
    including the records of the spec's scenario 5.

    ** Not modelled, and simplifications

    - Not modelled: the Supabase connection ([init_connection],
      [st.secrets]), which is I/O; the page layout and the chart encodings
      (colours, tooltips, widths).  A chart is represented by its data table
      and the order of its axis.
    - Floats are idealised as exact rationals [Q]:
      - a mean is exact;
      - [f"{x:.2f}"] rounds the exact value half to even, so it can differ
        from CPython in the last digit on binary ties (2.675 prints
        "2.68" here, "2.67" in Python);
      - an infinite float has no value in [Q]: the text "inf" in [Hours]
        reads as NaN and becomes 0, where pandas keeps infinity.
    - Timestamps are wall-clock: a UTC offset in the text is checked for
      shape but not applied, which is exact when all rows share one offset
      (as rows from one database column do).
    - The [ValueError] of [pd.Grouper(freq='ME')] on a column whose
      values are all NaT (line 96) is reasoned from pandas' code path
      ([TimeGrouper._get_time_bins] takes the edges from [min()] and
      [max()], and [date_range] refuses NaT edges); it was not run.
    - Only the ISO-8601 shapes are parsed.  [dateutil]'s other formats are
      not modelled; a string of another shape is a [ValueError].
    - The label columns are text or null, as the table's schema types
      them.
    - The session model relies on Streamlit's behaviour that a keyed
      widget's value is dropped after a run that did not draw it. *)

From Stdlib Require Export QArith ZArith Ascii String.
From stdpp Require Export base list strings sorting sets.

(** ** Errors of the Python program

    The script has no [try]: every exception raised by pandas ends the
    Streamlit run.  The model makes the exception a value. *)

Inductive py_error :=
| KeyError (col : string)
| ValueError (what : string)
| OutOfBoundsDatetime (what : string)
| TypeError (what : string)
| AttributeError (name : string)
| IndexError (what : string).

Inductive result (A : Type) :=
| Ok (a : A)
| Err (e : py_error).
Arguments Ok {A} a.
Arguments Err {A} e.

Declare Scope dxc_scope.
Delimit Scope dxc_scope with dxc.
Open Scope dxc_scope.

Definition res_bind {A B} (m : result A) (k : A -> result B) : result B :=
  match m with Ok a => k a | Err e => Err e end.

Notation "x <- m ;; k" := (res_bind m (fun x => k))
  (at level 60, m at next level, right associativity) : dxc_scope.

(** [traverse_res f l] applies a fallible [f] to every element, stopping at
    the first error (the way a vectorised pandas conversion raises on its
    first bad element). *)
Fixpoint traverse_res {A B} (f : A -> result B) (l : list A) : result (list B) :=
  match l with
  | [] => Ok []
  | x :: l' => y <- f x ;; ys <- traverse_res f l' ;; Ok (y :: ys)
  end.

(** ** Rational arithmetic for pandas floats

    Hours and averages are Python floats; they are modelled as [Q]
    (exact rationals), and an average over an empty set, NaN in pandas,
    is [None]. *)

Definition qsum (l : list Q) : Q := fold_right Qplus 0%Q l.

Definition qmean (l : list Q) : option Q :=
  match l with
  | [] => None
  | _ => Some (qsum l / inject_Z (Z.of_nat (length l)))%Q
  end.

(** Equality of optional rationals up to [Qeq]. *)
Definition opt_Qeq (a b : option Q) : Prop :=
  match a, b with
  | Some x, Some y => (x == y)%Q
  | None, None => True
  | _, _ => False
  end.

Create HintDb dxc discriminated.

(** [check_upto n f] checks [f] on [0 .. n-1]: a bounded universal
    statement decided by evaluation.  The counter is carried as a [Z] so
    that each step is constant time. *)
Fixpoint check_from (n : nat) (k : Z) (f : Z -> bool) : bool :=
  match n with
  | O => true
  | S n' => f k && check_from n' (k + 1)%Z f
  end.

Definition check_upto (n : nat) (f : Z -> bool) : bool := check_from n 0%Z f.

Lemma check_from_spec n k0 f :
  check_from n k0 f = true -> forall k, (k0 <= k < k0 + Z.of_nat n)%Z -> f k = true.
Proof.
  revert k0; induction n as [|n IH]; simpl; intros k0 Hc k Hk; [lia|].
  apply andb_true_iff in Hc as [Hf Hc].
  destruct (Z.eq_dec k k0) as [->|Hne]; [exact Hf|].
  apply (IH (k0 + 1)%Z); [exact Hc|lia].
Qed.

Lemma check_upto_spec n f :
  check_upto n f = true -> forall k, (0 <= k < Z.of_nat n)%Z -> f k = true.
Proof. intros Hc k Hk. apply (check_from_spec n 0 f Hc). lia. Qed.

(** ** Decimal digits *)

Definition digit_val (c : ascii) : option Z :=
  let n := Z.of_N (N_of_ascii c) in
  if (48 <=? n)%Z && (n <=? 57)%Z then Some (n - 48)%Z else None.

Definition digit_char (n : Z) : ascii := ascii_of_N (Z.to_N (48 + n)).

Definition ascii_digit_pred (n : Z) : bool :=
  match digit_val (ascii_of_N (Z.to_N n)) with
  | Some d => (0 <=? d)%Z && (d <? 10)%Z && Ascii.eqb (digit_char d) (ascii_of_N (Z.to_N n))
  | None => true
  end.

Lemma ascii_digit_check_true : check_upto 256 ascii_digit_pred = true.
Proof. vm_compute. reflexivity. Qed.

Lemma digit_val_spec c d : digit_val c = Some d -> (0 <= d < 10)%Z /\ digit_char d = c.
Proof.
  intros H.
  pose proof (N_ascii_bounded c).
  pose proof (check_upto_spec _ _ ascii_digit_check_true (Z.of_N (N_of_ascii c)) ltac:(simpl; lia)) as Hk.
  unfold ascii_digit_pred in Hk. rewrite N2Z.id, ascii_N_embedding, H in Hk.
  rewrite !andb_true_iff, Z.leb_le, Z.ltb_lt, Ascii.eqb_eq in Hk. tauto.
Qed.

Lemma digit_val_char d : (0 <= d < 10)%Z -> digit_val (digit_char d) = Some d.
Proof.
  intros Hd. assert (d = 0 \/ d = 1 \/ d = 2 \/ d = 3 \/ d = 4 \/ d = 5 \/ d = 6 \/ d = 7 \/ d = 8 \/ d = 9)%Z
    as H by lia.
  repeat destruct H as [->|H]; [reflexivity..|subst; reflexivity].
Qed.


Lemma str_app_cons x (a b : string) : String x a +:+ b = String x (a +:+ b).
Proof. reflexivity. Qed.

Lemma str_app_assoc (a b c : string) : (a +:+ b) +:+ c = a +:+ (b +:+ c).
Proof. induction a as [|x a IH]; [reflexivity|]. now rewrite !str_app_cons, IH. Qed.

(** ** Membership in [map] and [rev] (the Stdlib functions the model uses) *)

Lemma elem_of_map_iff {A B} (f : A -> B) (l : list A) y :
  y ∈ map f l <-> exists x, y = f x /\ x ∈ l.
Proof. apply (list_elem_of_fmap f l y). Qed.

Lemma elem_of_rev_iff {A} (l : list A) x : x ∈ rev l <-> x ∈ l.
Proof. rewrite !list_elem_of_In. symmetry. apply in_rev. Qed.

(** Lookup in the Stdlib's [map] and [repeat]. *)
Lemma lookup_map_Some {A B} (f : A -> B) (l : list A) i x :
  l !! i = Some x -> map f l !! i = Some (f x).
Proof. revert i; induction l as [|y l IH]; intros [|i]; simpl; try done; [by intros [= ->]|apply IH]. Qed.

Lemma lookup_repeat_lt {A} (x : A) n i : (i < n)%nat -> repeat x n !! i = Some x.
Proof. revert i; induction n as [|n IH]; intros [|i] Hi; simpl; try lia; [done|]. apply IH. lia. Qed.

(** ** Filters *)

Section filters.
Context {A : Type}.

Lemma filter_ext_in (P Q : A -> Prop) `{!∀ x, Decision (P x), !∀ x, Decision (Q x)} (l : list A) :
  (forall x, x ∈ l -> (P x <-> Q x)) -> filter P l = filter Q l.
Proof.
  induction l as [|a l IH]; intros Hpq; [done|].
  rewrite !filter_cons. rewrite IH by set_solver.
  destruct (decide (P a)), (decide (Q a)); set_solver.
Qed.

Lemma filter_app_disjoint (P Q : A -> Prop) `{!∀ x, Decision (P x), !∀ x, Decision (Q x)} (l : list A) :
  (forall x, P x -> Q x -> False) ->
  filter P l ++ filter Q l ≡ₚ filter (fun x => P x \/ Q x) l.
Proof.
  intros Hd. induction l as [|a l IH]; [done|]. rewrite !filter_cons.
  destruct (decide (P a)), (decide (Q a)); [naive_solver|..];
    rewrite ?decide_True by tauto; rewrite ?decide_False by tauto; simpl.
  - by rewrite IH.
  - by rewrite <- Permutation_middle, IH.
  - done.
Qed.

Lemma filter_all_false (P : A -> Prop) `{!∀ x, Decision (P x)} (l : list A) :
  (forall x, ~ P x) -> filter P l = [].
Proof. intros Hn. induction l as [|a l IH]; [done|]. by rewrite filter_cons_False. Qed.
Lemma filter_all_true (P : A -> Prop) `{!∀ x, Decision (P x)} (l : list A) :
  (forall x, x ∈ l -> P x) -> filter P l = l.
Proof.
  intros Hp. induction l as [|a l IH]; [done|].
  rewrite filter_cons_True by set_solver. f_equal. apply IH. set_solver.
Qed.
End filters.

Lemma qmean_nonempty (l : list Q) : l <> [] -> exists q, qmean l = Some q.
Proof. destruct l as [|x l]; [done|]. intros _. eexists. reflexivity. Qed.

Lemma filter_nil_in {A} (P : A -> Prop) `{!∀ x, Decision (P x)} (l : list A) :
  (forall x, x ∈ l -> ~ P x) -> filter P l = [].
Proof.
  intros Hn. rewrite (filter_ext_in P (fun _ => False)); [apply filter_all_false; tauto|].
  intros x Hx. specialize (Hn x Hx). tauto.
Qed.

Lemma sum_list_with_map {A B} (f : B -> nat) (g : A -> B) (l : list A) :
  sum_list_with f (map g l) = sum_list_with (fun x => f (g x)) l.
Proof. induction l as [|x l IH]; simpl; [done|]. by rewrite IH. Qed.

(** Close a decidable goal about concrete data by evaluation. *)
Ltac decide_by_eval := apply (bool_decide_unpack _); vm_compute; exact I.

Lemma filter_map_comm {A B} (P : B -> Prop) `{!∀ x, Decision (P x)} (f : A -> B) (l : list A) :
  filter P (map f l) = map f (filter (fun x => P (f x)) l).
Proof.
  induction l as [|x l IH]; [done|]. simpl. rewrite !filter_cons.
  destruct (decide (P (f x))); simpl; by rewrite IH.
Qed.

Lemma qsum_inject {A} (c : A -> nat) (l : list A) :
  (qsum (map (fun x => inject_Z (Z.of_nat (c x))) l) == inject_Z (Z.of_nat (sum_list_with c l)))%Q.
Proof.
  induction l as [|x l IH]; simpl; [reflexivity|]. unfold qsum in *. simpl.
  rewrite IH, Nat2Z.inj_add, inject_Z_plus. reflexivity.
Qed.

Lemma qmean_cons_value (l : list Q) :
  l <> [] -> qmean l = Some (qsum l / inject_Z (Z.of_nat (length l)))%Q.
Proof. destruct l; [done|]. reflexivity. Qed.

Lemma head_rev_last {A} (l : list A) : head (rev l) = last l.
Proof.
  induction l as [|x l IH] using rev_ind; [done|].
  rewrite rev_unit, last_app. reflexivity.
Qed.

Lemma last_map {A B} (f : A -> B) (l : list A) : last (map f l) = f <$> last l.
Proof.
  induction l as [|x l IH] using rev_ind; [done|].
  rewrite map_app, !last_app. reflexivity.
Qed.
