(* ===== verification/Datetime.v ===== *)
(** * Timestamps as pandas stores them

    [pd.to_datetime] (DXC_Analytics.py line 35) stores a [datetime64[ns]]
    value: a signed 64-bit count of nanoseconds since 1970-01-01, with the
    smallest value reserved for NaT.  This file models that representation
    ([Z] nanoseconds, [None] for NaT), the proleptic Gregorian calendar
    numpy converts with, the ISO-8601 strings the database returns, and the
    two formatted views the script takes of a timestamp: the month period
    string of [.dt.to_period('M').astype(str)] (line 41) and the
    [strftime('%m/%y')] label (line 102). *)

From S2P Require Import Prelude.
Open Scope Z_scope.

(** ** The calendar *)

Definition is_leap (y : Z) : bool :=
  ((y mod 4 =? 0) && negb (y mod 100 =? 0)) || (y mod 400 =? 0).

Definition days_in_month (y m : Z) : Z :=
  if m =? 2 then (if is_leap y then 29 else 28)
  else if (m =? 4) || (m =? 6) || (m =? 9) || (m =? 11) then 30
  else 31.

Definition valid_date (y m d : Z) : bool :=
  (1 <=? m) && (m <=? 12) && (1 <=? d) && (d <=? days_in_month y m).

(** Day number of a civil date, day 0 being 1970-01-01: the era-based
    closed form (400-year eras of 146097 days, years starting in March so
    that the leap day is the last day of a year).  [doe_of yoe m d] is the
    day of the era of month [m], day [d] of the [yoe]-th March-based year
    of an era. *)
Definition doe_of (yoe m d : Z) : Z :=
  let mp := if m >? 2 then m - 3 else m + 9 in
  yoe * 365 + yoe / 4 - yoe / 100 + ((153 * mp + 2) / 5 + d - 1).

Definition days_from_civil (y m d : Z) : Z :=
  let y' := if m <=? 2 then y - 1 else y in
  (y' / 400) * 146097 + doe_of (y' mod 400) m d - 719468.

(** The inverse on one era: the year of the era (January and February
    belong to the next civil year), the month and the day. *)
Definition ymd_of_doe (doe : Z) : Z * Z * Z :=
  let yoe := (doe - doe / 1460 + doe / 36524 - doe / 146096) / 365 in
  let doy := doe - (365 * yoe + yoe / 4 - yoe / 100) in
  let mp := (5 * doy + 2) / 153 in
  let d := doy - (153 * mp + 2) / 5 + 1 in
  let m := if mp <? 10 then mp + 3 else mp - 9 in
  (if m <=? 2 then yoe + 1 else yoe, m, d).

Definition civil_from_days (z : Z) : Z * Z * Z :=
  let z' := z + 719468 in
  let '(y, m, d) := ymd_of_doe (z' mod 146097) in
  (y + (z' / 146097) * 400, m, d).

(** ** datetime64[ns] *)

Definition ns_per_day : Z := 86400 * 1000000000.

(** The representable range: [-2^63] is NaT, so the smallest timestamp is
    [-2^63 + 1] (1677-09-21) and the largest [2^63 - 1] (2262-04-11). *)
Definition ns_min : Z := - 2 ^ 63 + 1.
Definition ns_max : Z := 2 ^ 63 - 1.

Definition in_ns_range (t : Z) : bool := (ns_min <=? t) && (t <=? ns_max).

(** A cell of a [datetime64[ns]] column: [None] is NaT. *)
Definition dt_cell := option Z.

Definition date_of_ns (t : Z) : Z * Z * Z := civil_from_days (t / ns_per_day).

Definition year_of_ns (t : Z) : Z := fst (fst (date_of_ns t)).
Definition month_of_ns (t : Z) : Z := snd (fst (date_of_ns t)).

(** ** Formatting *)

(** [zpad w n]: the [w] low decimal digits of [n >= 0], zero-padded, as
    printf's [%0wd] prints a number of at most [w] digits. *)
Fixpoint zpad (w : nat) (n : Z) : string :=
  match w with
  | O => ""
  | S w' => zpad w' (n / 10) +:+ String (digit_char (n mod 10)) ""
  end.

(** [str(Period(t, 'M'))], e.g. ["2024-01"]. *)
Definition period_month_str (y m : Z) : string := zpad 4 y +:+ "-" +:+ zpad 2 m.

(** [.dt.to_period('M').astype(str)] on one cell: NaT prints as ["NaT"]. *)
Definition month_year_str (c : dt_cell) : string :=
  match c with
  | None => "NaT"
  | Some t => period_month_str (year_of_ns t) (month_of_ns t)
  end.

(** [strftime('%m/%y')] of a timestamp of year [y], month [m]. *)
Definition month_label (y m : Z) : string := zpad 2 m +:+ "/" +:+ zpad 2 (y mod 100).

(** ** [pd.to_datetime] on one value

    The database returns a timestamp column as ISO-8601 text,
    ["YYYY-MM-DD"] optionally followed by ['T'] or [' '], ["HH:MM"],
    optional [":SS"] with an optional fraction of 1 to 9 digits, and an
    optional offset ["Z"] or [+HH:MM]/[-HH:MM].  The timestamp kept is the
    wall-clock time of the string (what [to_period] and the month grouper
    read). *)

(** Exactly [n] digits. *)
Fixpoint read_digits (n : nat) (acc : Z) (s : string) : option (Z * string) :=
  match n with
  | O => Some (acc, s)
  | S n' =>
      match s with
      | String c s' => d ← digit_val c; read_digits n' (acc * 10 + d) s'
      | EmptyString => None
      end
  end.

(** At most [k] digits, greedily: the value, how many were read, the rest. *)
Fixpoint read_frac (k : nat) (acc : Z) (s : string) : Z * nat * string :=
  match k, s with
  | S k', String c s' =>
      match digit_val c with
      | Some d => let '(v, n, r) := read_frac k' (acc * 10 + d) s' in (v, S n, r)
      | None => (acc, O, s)
      end
  | _, _ => (acc, O, s)
  end.

Definition expect (c : ascii) (s : string) : option string :=
  match s with
  | String c' s' => if Ascii.eqb c c' then Some s' else None
  | EmptyString => None
  end.

(** The shape of an ISO string, which is what pandas' inferred format
    records: the date-time separator with the presence of seconds and of a
    fraction (when there is a time), and the presence of an offset. *)
Record iso_shape := mk_shape {
  sh_time : option (ascii * bool * bool);
  sh_offset : bool }.

#[export] Instance iso_shape_eq_dec : EqDecision iso_shape.
Proof. solve_decision. Defined.

Record civil := mk_civil {
  c_year : Z; c_month : Z; c_day : Z;
  c_hour : Z; c_minute : Z; c_second : Z; c_nano : Z;
  c_shape : iso_shape }.

(** The offset must end the string; the result says whether there is one. *)
Definition parse_offset (s : string) : option bool :=
  match s with
  | EmptyString => Some false
  | String c r =>
      if Ascii.eqb c "Z" then (match r with EmptyString => Some true | _ => None end)
      else if Ascii.eqb c "+" || Ascii.eqb c "-" then
        '(oh, r) ← read_digits 2 0 r; r ← expect ":" r; '(om, r) ← read_digits 2 0 r;
        match r with
        | EmptyString => if (oh <? 24) && (om <? 60) then Some true else None
        | _ => None
        end
      else None
  end.

(** Seconds, nanoseconds, whether seconds and a fraction were written. *)
Definition parse_seconds (s : string) : option (Z * Z * bool * bool * string) :=
  match expect ":" s with
  | None => Some (0, 0, false, false, s)
  | Some r =>
      '(ss, r) ← read_digits 2 0 r;
      match expect "." r with
      | None => Some (ss, 0, true, false, r)
      | Some r' =>
          let '(v, n, r'') := read_frac 9 0 r' in
          if (n =? 0)%nat then None
          else Some (ss, v * 10 ^ (9 - Z.of_nat n), true, true, r'')
      end
  end.

Definition parse_time (s : string) : option (Z * Z * Z * Z * iso_shape) :=
  match s with
  | EmptyString => Some (0, 0, 0, 0, mk_shape None false)
  | String c r =>
      if Ascii.eqb c "T" || Ascii.eqb c " " then
        '(hh, r) ← read_digits 2 0 r; r ← expect ":" r; '(mi, r) ← read_digits 2 0 r;
        '(ss, ns, hs, hf, r) ← parse_seconds r;
        off ← parse_offset r; Some (hh, mi, ss, ns, mk_shape (Some (c, hs, hf)) off)
      else None
  end.

Definition parse_iso (s : string) : option civil :=
  '(y, r) ← read_digits 4 0 s; r ← expect "-" r;
  '(m, r) ← read_digits 2 0 r; r ← expect "-" r;
  '(d, r) ← read_digits 2 0 r;
  '(hh, mi, ss, ns, sh) ← parse_time r;
  Some (mk_civil y m d hh mi ss ns sh).

Definition valid_civil (c : civil) : bool :=
  valid_date (c_year c) (c_month c) (c_day c) &&
  (c_hour c <? 24) && (c_minute c <? 60) && (c_second c <? 60).

Definition civil_to_ns (c : civil) : Z :=
  days_from_civil (c_year c) (c_month c) (c_day c) * ns_per_day
  + ((c_hour c * 60 + c_minute c) * 60 + c_second c) * 1000000000 + c_nano c.

(** [fmt] is the format pandas inferred for the column, if any.  A string
    that does not parse, has another shape than [fmt], or names no date
    raises [ValueError]; a date outside the nanosecond range raises
    [OutOfBoundsDatetime]. *)
Definition shape_ok (fmt : option iso_shape) (sh : iso_shape) : bool :=
  match fmt with None => true | Some f => bool_decide (f = sh) end.

Definition to_datetime_str (fmt : option iso_shape) (s : string) : result Z :=
  match parse_iso s with
  | None => Err (ValueError s)
  | Some c =>
      if valid_civil c && shape_ok fmt (c_shape c) then
        let t := civil_to_ns c in
        if in_ns_range t then Ok t else Err (OutOfBoundsDatetime s)
      else Err (ValueError s)
  end.

(** ** The calendar checked on one era

    Both conversions reduce to one 400-year era; the era is checked
    exhaustively by evaluation, and periodicity lifts the check to every
    year. *)

Definition era_adj (m : Z) : Z := if m <=? 2 then 1 else 0.

Definition triple_eqb (a b : Z * Z * Z) : bool :=
  let '(a1, a2, a3) := a in let '(b1, b2, b3) := b in
  (a1 =? b1) && (a2 =? b2) && (a3 =? b3).

Definition civil_era_pred (yoe m d : Z) : bool :=
  implb (d <=? days_in_month (yoe + era_adj m) m)
    ((0 <=? doe_of yoe m d) && (doe_of yoe m d <? 146097) &&
     triple_eqb (ymd_of_doe (doe_of yoe m d)) (yoe + era_adj m, m, d)).

Definition doe_era_pred (doe : Z) : bool :=
  let '(y, m, d) := ymd_of_doe doe in
  valid_date y m d && (0 <=? y - era_adj m) && (y - era_adj m <? 400) &&
  (doe_of (y - era_adj m) m d =? doe).

Lemma civil_era_check_true yoe :
  0 <= yoe < 400 ->
  check_upto 12 (fun m0 => check_upto 31 (fun d0 => civil_era_pred yoe (m0 + 1) (d0 + 1))) = true.
Proof.
  apply (check_upto_spec 400 (fun yoe =>
    check_upto 12 (fun m0 => check_upto 31 (fun d0 => civil_era_pred yoe (m0 + 1) (d0 + 1))))).
  vm_compute. reflexivity.
Qed.

Lemma doe_era_check_true : check_upto (Z.to_nat 146097) doe_era_pred = true.
Proof. vm_compute. reflexivity. Qed.

Lemma triple_eqb_eq a b : triple_eqb a b = true -> a = b.
Proof.
  destruct a as [[a1 a2] a3], b as [[b1 b2] b3]; simpl.
  rewrite !andb_true_iff, !Z.eqb_eq. intros [[-> ->] ->]. reflexivity.
Qed.

Lemma is_leap_period y k : is_leap (y + 400 * k) = is_leap y.
Proof.
  unfold is_leap.
  replace (y + 400 * k) with (y + (100 * k) * 4) by ring. rewrite Z.mod_add by lia.
  replace (y + 100 * k * 4) with (y + (4 * k) * 100) by ring. rewrite Z.mod_add by lia.
  replace (y + 4 * k * 100) with (y + k * 400) by ring. rewrite Z.mod_add by lia.
  reflexivity.
Qed.

Lemma days_in_month_period y k m : days_in_month (y + 400 * k) m = days_in_month y m.
Proof. unfold days_in_month. now rewrite is_leap_period. Qed.

Lemma days_in_month_bounds y m : 28 <= days_in_month y m <= 31.
Proof.
  unfold days_in_month.
  destruct (m =? 2), (is_leap y), ((m =? 4) || (m =? 6) || (m =? 9) || (m =? 11)); lia.
Qed.

Lemma valid_date_iff y m d :
  valid_date y m d = true <-> 1 <= m <= 12 /\ 1 <= d <= days_in_month y m.
Proof. unfold valid_date. rewrite !andb_true_iff, !Z.leb_le. tauto. Qed.

Lemma civil_era_ok yoe m d :
  0 <= yoe < 400 -> 1 <= m <= 12 -> 1 <= d <= days_in_month (yoe + era_adj m) m ->
  0 <= doe_of yoe m d < 146097 /\ ymd_of_doe (doe_of yoe m d) = (yoe + era_adj m, m, d).
Proof.
  intros Hy Hm Hd. pose proof (days_in_month_bounds (yoe + era_adj m) m).
  pose proof (check_upto_spec 12 _ (civil_era_check_true yoe Hy) (m - 1) ltac:(simpl; lia)) as H2.
  pose proof (check_upto_spec 31 _ H2 (d - 1) ltac:(simpl; lia)) as H3.
  cbv beta in H3. replace (m - 1 + 1) with m in H3 by lia. replace (d - 1 + 1) with d in H3 by lia.
  unfold civil_era_pred in H3.
  destruct Hd as [_ Hd]. rewrite (proj2 (Z.leb_le _ _) Hd) in H3.
  cbn [implb] in H3. rewrite !andb_true_iff, Z.leb_le, Z.ltb_lt in H3.
  destruct H3 as [[H3a H3b] H3c]. split; [lia|]. now apply triple_eqb_eq.
Qed.

Lemma doe_era_ok doe :
  0 <= doe < 146097 ->
  let '(y, m, d) := ymd_of_doe doe in
  valid_date y m d = true /\ 0 <= y - era_adj m < 400 /\ doe_of (y - era_adj m) m d = doe.
Proof.
  intros Hd. pose proof (check_upto_spec _ doe_era_pred doe_era_check_true doe ltac:(lia)) as H.
  unfold doe_era_pred in H. destruct (ymd_of_doe doe) as [[y m] d].
  rewrite !andb_true_iff, Z.leb_le, Z.ltb_lt, Z.eqb_eq in H. tauto.
Qed.

(** Splitting a number into a quotient and a remainder. *)
Lemma div_mod_split b e a :
  0 <= a < b -> (e * b + a) mod b = a /\ (e * b + a) / b = e.
Proof.
  intros Ha. rewrite Z.add_comm. split.
  - rewrite Z.mod_add by lia. apply Z.mod_small. lia.
  - rewrite Z.div_add by lia. rewrite Z.div_small by lia. lia.
Qed.

Lemma march_year y m : (if m <=? 2 then y - 1 else y) = y - era_adj m.
Proof. unfold era_adj. destruct (m <=? 2); lia. Qed.

(** C26: Every civil date survives the trip to a day number and back. *)
Theorem civil_from_days_of_civil y m d :
  valid_date y m d = true -> civil_from_days (days_from_civil y m d) = (y, m, d).
Proof.
  intros Hv. apply valid_date_iff in Hv as [Hm Hd].
  unfold days_from_civil, civil_from_days. cbv zeta. rewrite march_year.
  set (y' := y - era_adj m).
  pose proof (Z.div_mod y' 400 ltac:(lia)). pose proof (Z.mod_pos_bound y' 400 ltac:(lia)).
  assert (Hd' : 1 <= d <= days_in_month (y' mod 400 + era_adj m) m).
  { rewrite <- (days_in_month_period _ (y' / 400)).
    replace (y' mod 400 + era_adj m + 400 * (y' / 400)) with y by (unfold y' in *; lia). exact Hd. }
  destruct (civil_era_ok (y' mod 400) m d ltac:(lia) Hm Hd') as [Hr Hymd].
  replace (y' / 400 * 146097 + doe_of (y' mod 400) m d - 719468 + 719468)
    with (y' / 400 * 146097 + doe_of (y' mod 400) m d) by ring.
  destruct (div_mod_split 146097 (y' / 400) _ Hr) as [-> ->]. rewrite Hymd.
  f_equal. f_equal. unfold y' in *. lia.
Qed.

(** C27: Every day number names a valid civil date, and comes back from it. *)
Theorem days_from_civil_of_days z y m d :
  civil_from_days z = (y, m, d) -> valid_date y m d = true /\ days_from_civil y m d = z.
Proof.
  unfold civil_from_days. cbv zeta.
  pose proof (Z.div_mod (z + 719468) 146097 ltac:(lia)).
  pose proof (Z.mod_pos_bound (z + 719468) 146097 ltac:(lia)) as Hb.
  pose proof (doe_era_ok _ Hb) as Hok.
  destruct (ymd_of_doe ((z + 719468) mod 146097)) as [[yy m'] d'].
  destruct Hok as (Hv & Hy & Hdoe). intros [= <- <- <-].
  apply valid_date_iff in Hv as [Hm Hd]. split.
  - apply valid_date_iff. split; [exact Hm|].
    rewrite Z.mul_comm, days_in_month_period. exact Hd.
  - unfold days_from_civil. cbv zeta. rewrite march_year.
    replace (yy + (z + 719468) / 146097 * 400 - era_adj m')
      with ((z + 719468) / 146097 * 400 + (yy - era_adj m')) by ring.
    destruct (div_mod_split 400 ((z + 719468) / 146097) _ Hy) as [-> ->].
    rewrite Hdoe. lia.
Qed.

(** ** Reading digits back *)

Lemma pow10_succ n : 10 ^ Z.of_nat (S n) = 10 * 10 ^ Z.of_nat n.
Proof. rewrite Nat2Z.inj_succ, Z.pow_succ_r by lia. reflexivity. Qed.

Lemma pow10_pos n : 0 < 10 ^ Z.of_nat n.
Proof. apply Z.pow_pos_nonneg; lia. Qed.

Lemma zpad_S n w : zpad (S n) w = zpad n (w / 10) +:+ String (digit_char (w mod 10)) "".
Proof. reflexivity. Qed.

Lemma zpad_cons n d w :
  0 <= d < 10 -> 0 <= w < 10 ^ Z.of_nat n ->
  zpad (S n) (d * 10 ^ Z.of_nat n + w) = String (digit_char d) (zpad n w).
Proof.
  revert d w; induction n as [|n IH]; intros d w Hd Hw.
  - simpl in *. replace w with 0 by lia. rewrite Z.mul_1_r, Z.add_0_r, Z.mod_small by lia.
    reflexivity.
  - rewrite pow10_succ in *. pose proof (Z.div_mod w 10 ltac:(lia)).
    pose proof (Z.mod_pos_bound w 10 ltac:(lia)).
    replace (d * (10 * 10 ^ Z.of_nat n) + w)
      with ((d * 10 ^ Z.of_nat n + w / 10) * 10 + w mod 10) by lia.
    rewrite zpad_S. destruct (div_mod_split 10 (d * 10 ^ Z.of_nat n + w / 10) (w mod 10)) as [-> ->]; [lia|].
    assert (0 <= w / 10 < 10 ^ Z.of_nat n).
    { split; [apply Z.div_pos|apply Z.div_lt_upper_bound]; lia. }
    rewrite IH by lia.
    rewrite (zpad_S n w). reflexivity.
Qed.

Lemma read_digits_spec n acc s v r :
  read_digits n acc s = Some (v, r) ->
  exists w, 0 <= w < 10 ^ Z.of_nat n /\ v = acc * 10 ^ Z.of_nat n + w /\ s = zpad n w +:+ r.
Proof.
  revert acc s; induction n as [|n IH]; intros acc s H; simpl in H.
  - injection H as <- <-. exists 0. simpl. split; [lia|split; [lia|reflexivity]].
  - destruct s as [|c s]; [discriminate|].
    destruct (digit_val c) as [d|] eqn:Hd; [|discriminate]. simpl in H.
    apply digit_val_spec in Hd as [Hd Hc].
    destruct (IH _ _ H) as (w & Hw & -> & ->).
    exists (d * 10 ^ Z.of_nat n + w). rewrite pow10_succ. pose proof (pow10_pos n).
    split; [nia|]. split; [ring|].
    rewrite zpad_cons by lia. now rewrite Hc.
Qed.

Lemma read_frac_spec k acc s v n r :
  read_frac k acc s = (v, n, r) ->
  (n <= k)%nat /\ exists w, 0 <= w < 10 ^ Z.of_nat n /\ v = acc * 10 ^ Z.of_nat n + w.
Proof.
  revert acc s v n r; induction k as [|k IH]; intros acc s v n r H.
  - simpl in H. injection H as <- <- <-. split; [lia|]. exists 0. simpl. lia.
  - destruct s as [|c s]; simpl in H; [injection H as <- <- <-; split; [lia|]; exists 0; simpl; lia|].
    destruct (digit_val c) as [d|] eqn:Hd; [|injection H as <- <- <-; split; [lia|]; exists 0; simpl; lia].
    destruct (read_frac k (acc * 10 + d) s) as [[v' n'] r'] eqn:Hr. injection H as <- <- <-.
    apply digit_val_spec in Hd as [Hd _]. destruct (IH _ _ _ _ _ Hr) as [Hn (w & Hw & ->)].
    split; [lia|]. exists (d * 10 ^ Z.of_nat n' + w). rewrite pow10_succ. pose proof (pow10_pos n').
    split; [nia|ring].
Qed.

Lemma frac_scaled_bound w n :
  (n <= 9)%nat -> 0 <= w < 10 ^ Z.of_nat n -> 0 <= w * 10 ^ (9 - Z.of_nat n) < 10 ^ 9.
Proof.
  intros Hn Hw.
  assert (10 ^ Z.of_nat n * 10 ^ (9 - Z.of_nat n) = 10 ^ 9) as E.
  { rewrite <- Z.pow_add_r by lia. f_equal. lia. }
  assert (0 < 10 ^ (9 - Z.of_nat n)) by (apply Z.pow_pos_nonneg; lia). nia.
Qed.

Lemma parse_seconds_spec s ss ns hs hf r :
  parse_seconds s = Some (ss, ns, hs, hf, r) -> 0 <= ss /\ 0 <= ns < 10 ^ 9.
Proof.
  unfold parse_seconds. destruct (expect ":" s) as [r1|].
  2:{ intros H; injection H; intros; subst; lia. }
  intros H. apply bind_Some in H as ([ss' r2] & E & H). cbv beta iota in H.
  destruct (read_digits_spec _ _ _ _ _ E) as (w & Hw & -> & _).
  destruct (expect "." r2) as [r3|].
  2:{ injection H; intros; subst; simpl; lia. }
  destruct (read_frac 9 0 r3) as [[v n] r4] eqn:F.
  destruct (read_frac_spec _ _ _ _ _ _ F) as [Hn (w' & Hw' & ->)].
  destruct (n =? 0)%nat; [discriminate|]. injection H; intros; subst.
  pose proof (frac_scaled_bound w' n Hn Hw'). simpl. lia.
Qed.

Lemma parse_time_spec s hh mi ss ns sh :
  parse_time s = Some (hh, mi, ss, ns, sh) -> 0 <= hh /\ 0 <= mi /\ 0 <= ss /\ 0 <= ns < 10 ^ 9.
Proof.
  unfold parse_time. destruct s as [|c r]; [intros H; injection H; intros; subst; lia|].
  destruct (Ascii.eqb c "T" || Ascii.eqb c " "); [|intros ?; discriminate].
  intros H. apply bind_Some in H as ([h r1] & E1 & H); cbv beta iota in H.
  apply bind_Some in H as (r2 & _ & H).
  apply bind_Some in H as ([m r3] & E2 & H); cbv beta iota in H.
  apply bind_Some in H as ([[[[s' n'] hs] hf] r4] & E3 & H); cbv beta iota in H.
  apply bind_Some in H as (u & _ & H). injection H; intros; subst.
  destruct (read_digits_spec _ _ _ _ _ E1) as (w1 & ? & -> & _).
  destruct (read_digits_spec _ _ _ _ _ E2) as (w2 & ? & -> & _).
  pose proof (parse_seconds_spec _ _ _ _ _ _ E3). simpl. lia.
Qed.

Lemma expect_Some c s r : expect c s = Some r -> s = String c r.
Proof.
  destruct s as [|c' s]; simpl; [discriminate|].
  destruct (Ascii.eqb c c') eqn:C; [|discriminate]. apply Ascii.eqb_eq in C as <-.
  now intros [= ->].
Qed.

(** What a successful parse tells about the string: four digits of year,
    a dash, two digits of month, a dash; and the fields' ranges. *)
Lemma parse_iso_spec s c :
  parse_iso s = Some c ->
  0 <= c_year c < 10000 /\ 0 <= c_hour c /\ 0 <= c_minute c /\ 0 <= c_second c /\
  0 <= c_nano c < 10 ^ 9 /\
  exists rest, s = zpad 4 (c_year c) +:+ "-" +:+ zpad 2 (c_month c) +:+ "-" +:+ rest.
Proof.
  unfold parse_iso. intros H.
  apply bind_Some in H as ([y r1] & E1 & H); cbv beta iota in H.
  apply bind_Some in H as (r2 & X1 & H).
  apply bind_Some in H as ([m r3] & E2 & H); cbv beta iota in H.
  apply bind_Some in H as (r4 & X2 & H).
  apply bind_Some in H as ([d r5] & E3 & H); cbv beta iota in H.
  apply bind_Some in H as ([[[[hh mi] ss] ns] sh] & E4 & H); cbv beta iota in H.
  injection H as <-. simpl.
  destruct (read_digits_spec _ _ _ _ _ E1) as (wy & Hy & -> & ->).
  destruct (read_digits_spec _ _ _ _ _ E2) as (wm & Hm & -> & ->).
  pose proof (parse_time_spec _ _ _ _ _ _ E4).
  apply expect_Some in X1 as ->. apply expect_Some in X2 as ->.
  simpl in Hy. split; [lia|]. split; [lia|]. split; [lia|]. split; [lia|]. split; [lia|].
  exists r4. reflexivity.
Qed.

(** The time of day of a checked civil value fits in one day. *)
Lemma civil_to_ns_day c :
  valid_civil c = true -> 0 <= c_hour c -> 0 <= c_minute c -> 0 <= c_second c ->
  0 <= c_nano c < 10 ^ 9 ->
  civil_to_ns c / ns_per_day = days_from_civil (c_year c) (c_month c) (c_day c).
Proof.
  unfold valid_civil, civil_to_ns. rewrite !andb_true_iff, !Z.ltb_lt.
  intros [[[_ Hh] Hm] Hs] ? ? ? Hn.
  rewrite <- Z.add_assoc.
  apply (div_mod_split ns_per_day). unfold ns_per_day. simpl in Hn. lia.
Qed.

Lemma date_of_civil_ns c :
  valid_civil c = true -> 0 <= c_hour c -> 0 <= c_minute c -> 0 <= c_second c ->
  0 <= c_nano c < 10 ^ 9 ->
  date_of_ns (civil_to_ns c) = (c_year c, c_month c, c_day c).
Proof.
  intros Hv ? ? ? ?. unfold date_of_ns. rewrite civil_to_ns_day by assumption.
  apply civil_from_days_of_civil.
  unfold valid_civil in Hv. rewrite !andb_true_iff in Hv. tauto.
Qed.

(** C5: the month key [month_year_str] of a timestamp parsed from text
    is the text's own leading [YYYY-MM]: converting to nanoseconds and
    back through the calendar loses nothing of the year and the month. *)
Theorem month_key_of_parsed fmt s t :
  to_datetime_str fmt s = Ok t ->
  exists rest, s = month_year_str (Some t) +:+ "-" +:+ rest.
Proof.
  unfold to_datetime_str. destruct (parse_iso s) as [c|] eqn:P; [|discriminate].
  destruct (valid_civil c) eqn:V; [|discriminate]. destruct (shape_ok fmt (c_shape c)); [|discriminate].
  destruct (in_ns_range (civil_to_ns c)); [|discriminate]. intros [= <-].
  destruct (parse_iso_spec _ _ P) as (Hy & Hh & Hm & Hs & Hn & rest & ->).
  exists rest. unfold month_year_str, year_of_ns, month_of_ns.
  rewrite date_of_civil_ns by assumption. simpl. unfold period_month_str.
  rewrite !str_app_assoc. reflexivity.
Qed.

(** ** The month key of a timestamp is never the NaT key *)

Lemma zpad_head n x : exists k r, zpad (S n) x = String (digit_char (k mod 10)) r.
Proof.
  revert x; induction n as [|n IH]; intros x.
  - exists x, "". reflexivity.
  - rewrite zpad_S. destruct (IH (x / 10)) as (k & r & ->).
    exists k, (r +:+ String (digit_char (x mod 10)) ""). reflexivity.
Qed.

Lemma digit_char_not_N k : digit_char (k mod 10) <> "N"%char.
Proof.
  unfold digit_char. pose proof (Z.mod_pos_bound k 10 ltac:(lia)). intros E.
  apply (f_equal N_of_ascii) in E. rewrite N_ascii_embedding in E by lia.
  simpl in E. lia.
Qed.

Lemma month_year_str_not_NaT t : month_year_str (Some t) <> "NaT".
Proof.
  simpl. unfold period_month_str. destruct (zpad_head 3 (year_of_ns t)) as (k & r & ->).
  rewrite str_app_cons. intros [= E _]. exact (digit_char_not_N k E).
Qed.

Lemma month_year_str_NaT c : month_year_str c = "NaT" <-> c = None.
Proof.
  destruct c as [t|]; [|done]. split; [|discriminate].
  intros E. exfalso. exact (month_year_str_not_NaT t E).
Qed.

(** Every month key sorts at or below ["NaT"]: a real key starts with a
    digit, which is below ['N']. *)
Lemma month_key_le_NaT c : String.le (month_year_str c) "NaT".
Proof.
  destruct c as [t|]; [|reflexivity].
  simpl. unfold period_month_str. destruct (zpad_head 3 (year_of_ns t)) as (k & r & ->).
  rewrite str_app_cons. unfold String.le, String.leb. simpl.
  unfold Ascii.compare, digit_char. pose proof (Z.mod_pos_bound k 10 ltac:(lia)).
  rewrite N_ascii_embedding by lia.
  replace (N.compare _ _) with Lt; [done|]. symmetry. apply N.compare_lt_iff. simpl. lia.
Qed.

Lemma civil_from_days_of_civil_witness :
  valid_date 2024 2 29 = true /\ civil_from_days (days_from_civil 2024 2 29) = (2024, 2, 29).
Proof. split; [reflexivity|]. apply civil_from_days_of_civil. reflexivity. Defined.

Lemma days_from_civil_of_days_witness :
  civil_from_days (-1) = (1969, 12, 31) /\
  valid_date 1969 12 31 = true /\ days_from_civil 1969 12 31 = -1.
Proof. split; [reflexivity|]. apply days_from_civil_of_days. reflexivity. Defined.

Lemma month_key_of_parsed_witness :
  exists t, to_datetime_str None "2024-01-05T10:23:00.5+00:00" = Ok t /\
  exists rest, "2024-01-05T10:23:00.5+00:00" = month_year_str (Some t) +:+ "-" +:+ rest.
Proof.
  eexists. split; [vm_compute; reflexivity|].
  apply (month_key_of_parsed None). vm_compute. reflexivity.
Defined.
