(* ===== verification/Calendar.v ===== *)
(** * The closed-form calendar against day-by-day counting

    [civil_from_days] (Datetime.v) converts a day number to a civil date in
    constant time with Hinnant's era arithmetic, as numpy does when pandas
    reads the year and month of a [datetime64[ns]] (lines 41 and 96-102 of
    DXC_Analytics.py).  This file states the reference it must agree with,
    the calendar counted one day at a time ([next_date]), and proves that
    the closed form agrees with it from every day on.  A consequence is the
    range of years a [datetime64[ns]] timestamp can have. *)

From S2P Require Import Prelude Datetime.
Open Scope Z_scope.

(** ** The reference: tomorrow's date *)

Definition next_date (c : Z * Z * Z) : Z * Z * Z :=
  let '(y, m, d) := c in
  if d <? days_in_month y m then (y, m, d + 1)
  else if m <? 12 then (y, m + 1, 1)
  else (y + 1, 1, 1).

Definition shift_years (k : Z) (c : Z * Z * Z) : Z * Z * Z :=
  let '(y, m, d) := c in (y + 400 * k, m, d).

(** The year of a day number. *)
Definition year_of_day (z : Z) : Z := fst (fst (civil_from_days z)).

(** ** One era, checked by evaluation *)

Definition succ_era_pred (z0 : Z) : bool :=
  triple_eqb (civil_from_days (z0 - 719468 + 1)) (next_date (civil_from_days (z0 - 719468))).

Lemma succ_era_check_true : check_upto (Z.to_nat 146097) succ_era_pred = true.
Proof. vm_compute. reflexivity. Qed.

(** ** Periodicity: 146097 days are 400 years *)

Lemma civil_from_days_period z k :
  civil_from_days (z + k * 146097) = shift_years k (civil_from_days z).
Proof.
  unfold civil_from_days. cbv zeta.
  replace (z + k * 146097 + 719468) with (z + 719468 + k * 146097) by ring.
  rewrite Z.mod_add, Z.div_add by lia.
  destruct (ymd_of_doe ((z + 719468) mod 146097)) as [[y m] d]. simpl. f_equal. f_equal. ring.
Qed.

Lemma next_date_period k c : next_date (shift_years k c) = shift_years k (next_date c).
Proof.
  destruct c as [[y m] d]. unfold next_date, shift_years.
  rewrite days_in_month_period.
  destruct (d <? days_in_month y m), (m <? 12); simpl; f_equal; f_equal; ring.
Qed.

(** ** The closed form refines day-by-day counting *)

Lemma civil_from_days_succ z : civil_from_days (z + 1) = next_date (civil_from_days z).
Proof.
  set (z0 := (z + 719468) mod 146097). set (k := (z + 719468) / 146097).
  pose proof (Z.div_mod (z + 719468) 146097 ltac:(lia)) as Hz.
  pose proof (Z.mod_pos_bound (z + 719468) 146097 ltac:(lia)) as Hb.
  pose proof (check_upto_spec _ _ succ_era_check_true z0 ltac:(rewrite Z2Nat.id; lia)) as H.
  apply triple_eqb_eq in H.
  replace z with (z0 - 719468 + k * 146097) by (unfold z0, k; lia).
  replace (z0 - 719468 + k * 146097 + 1) with (z0 - 719468 + 1 + k * 146097) by ring.
  rewrite !civil_from_days_period, H. apply eq_sym, next_date_period.
Qed.

(** C9: the constant-time conversion of a day number to a civil date
    agrees with counting days one at a time: [n] days after any day, it
    gives the date reached by [n] steps of the calendar's successor. *)
Theorem civil_from_days_iter z n :
  civil_from_days (z + Z.of_nat n) = Nat.iter n next_date (civil_from_days z).
Proof.
  induction n as [|n IH]; simpl Nat.iter.
  - by rewrite Z.add_0_r.
  - by rewrite Nat2Z.inj_succ, <- Z.add_1_r, Z.add_assoc, civil_from_days_succ, IH.
Qed.

(** ** The years a timestamp can have *)

Lemma next_date_year c : fst (fst c) <= fst (fst (next_date c)).
Proof.
  destruct c as [[y m] d]. unfold next_date.
  destruct (d <? days_in_month y m), (m <? 12); simpl; lia.
Qed.

Lemma year_of_day_mono z z' : z <= z' -> year_of_day z <= year_of_day z'.
Proof.
  intros Hz. replace z' with (z + Z.of_nat (Z.to_nat (z' - z))) by lia.
  unfold year_of_day. rewrite civil_from_days_iter.
  generalize (Z.to_nat (z' - z)) as n. intros n. induction n as [|n IH]; simpl Nat.iter; [lia|].
  etransitivity; [exact IH|apply next_date_year].
Qed.

(** Every day number names a month between 1 and 12. *)
Lemma civil_from_days_month z : 1 <= snd (fst (civil_from_days z)) <= 12.
Proof.
  destruct (civil_from_days z) as [[y m] d] eqn:E.
  destruct (days_from_civil_of_days z y m d E) as [Hv _]. apply valid_date_iff in Hv. simpl. lia.
Qed.

(** A [datetime64[ns]] timestamp lies in the years 1677 to 2262 and its
    month is between 1 and 12, so its month key ["YYYY-MM"] always has a
    four-digit year and a two-digit month. *)
Theorem year_of_ns_bounds t :
  in_ns_range t = true -> 1677 <= year_of_ns t <= 2262 /\ 1 <= month_of_ns t <= 12.
Proof.
  unfold in_ns_range. rewrite andb_true_iff, !Z.leb_le. intros [Hlo Hhi].
  unfold year_of_ns, month_of_ns, date_of_ns. split; [|apply civil_from_days_month].
  fold (year_of_day (t / ns_per_day)).
  pose proof (year_of_day_mono (ns_min / ns_per_day) (t / ns_per_day)
                (Z.div_le_mono _ _ ns_per_day ltac:(reflexivity) Hlo)) as H1.
  pose proof (year_of_day_mono (t / ns_per_day) (ns_max / ns_per_day)
                (Z.div_le_mono _ _ ns_per_day ltac:(reflexivity) Hhi)) as H2.
  assert (year_of_day (ns_min / ns_per_day) = 1677) as E1 by (vm_compute; reflexivity).
  assert (year_of_day (ns_max / ns_per_day) = 2262) as E2 by (vm_compute; reflexivity).
  lia.
Qed.

(** ** Examples *)

Lemma civil_from_days_iter_witness :
  civil_from_days (0 + Z.of_nat 59) = Nat.iter 59 next_date (civil_from_days 0) /\
  civil_from_days (0 + Z.of_nat 59) = (1970, 3, 1).
Proof. split; [apply civil_from_days_iter|vm_compute; reflexivity]. Defined.
