(* ===== verification/Numeric.v ===== *)
(** * [pd.to_numeric(errors='coerce').fillna(0)] on the Hours column

    Line 38 of DXC_Analytics.py turns each value of the [Hours] column into
    a float: numbers are kept, booleans become 1 and 0, text is parsed as a
    decimal number, and whatever does not convert becomes NaN, which
    [fillna(0)] replaces by 0.  A missing column is replaced by a column of
    zeros.  The JSON values of a row are the [json] type below (defined here
    because the Hours column is the first consumer of it). *)

From S2P Require Import Prelude.
Open Scope Z_scope.

(** A value of a row as the database client decodes it from JSON. *)
Inductive json :=
| JNull
| JBool (b : bool)
| JNum (q : Q)
| JStr (s : string).

(** ** Decimal text, as pandas' float parser reads it

    Surrounding white space, an optional sign, digits with an optional
    fraction (at least one digit in all), an optional exponent. *)

Definition is_space (c : ascii) : bool :=
  let n := N_of_ascii c in (n =? 32)%N || ((9 <=? n)%N && (n <=? 13)%N).

Fixpoint drop_spaces (l : list ascii) : list ascii :=
  match l with
  | c :: l' => if is_space c then drop_spaces l' else l
  | [] => []
  end.

Definition strip (s : string) : list ascii :=
  rev (drop_spaces (rev (drop_spaces (list_ascii_of_string s)))).

(** Digits, greedily: value, count, rest. *)
Fixpoint read_num (l : list ascii) (acc : Z) (n : nat) : Z * nat * list ascii :=
  match l with
  | c :: l' =>
      match digit_val c with
      | Some d => read_num l' (acc * 10 + d) (S n)
      | None => (acc, n, l)
      end
  | [] => (acc, n, l)
  end.

Definition read_sign (l : list ascii) : Z * list ascii :=
  match l with
  | c :: l' =>
      if Ascii.eqb c "-" then (-1, l')
      else if Ascii.eqb c "+" then (1, l') else (1, l)
  | [] => (1, l)
  end.

(** [m * 10^k] as a rational. *)
Definition scale10 (m k : Z) : Q :=
  if 0 <=? k then inject_Z (m * 10 ^ k) else (m # Z.to_pos (10 ^ (- k)))%Q.

(** The optional exponent: [None] when an [e] is not followed by digits. *)
Definition read_exponent (l : list ascii) : option (Z * list ascii) :=
  match l with
  | c :: l' =>
      if Ascii.eqb c "e" || Ascii.eqb c "E" then
        let '(sg, l'') := read_sign l' in
        let '(e, n, r) := read_num l'' 0 0 in
        if (n =? 0)%nat then None else Some (sg * e, r)
      else Some (0, l)
  | [] => Some (0, l)
  end.

Definition parse_decimal (s : string) : option Q :=
  let '(sg, l) := read_sign (strip s) in
  let '(ip, ni, l) := read_num l 0 0 in
  let '(fp, nf, l) :=
    match l with
    | c :: l' => if Ascii.eqb c "." then read_num l' 0 0 else (0, O, l)
    | [] => (0, O, l)
    end in
  if (ni + nf =? 0)%nat then None
  else
    e_r ← read_exponent l;
    let '(e, r) := e_r in
    match r with
    | [] => Some (scale10 (sg * (ip * 10 ^ Z.of_nat nf + fp)) (e - Z.of_nat nf))
    | _ => None
    end.

(** [pd.to_numeric(errors='coerce')] on one value: [None] is NaN. *)
Definition to_numeric (v : json) : option Q :=
  match v with
  | JNull => None
  | JBool b => Some (if b then 1 else 0)%Q
  | JNum q => Some q
  | JStr s => parse_decimal s
  end.

(** [.fillna(0)] after it. *)
Definition hours_value (v : json) : Q :=
  match to_numeric v with Some q => q | None => 0%Q end.

(** ** Decimal text reads back as its value *)

(** The [k] low decimal digits of [n]. *)
Fixpoint digit_list (k : nat) (n : Z) : list ascii :=
  match k with
  | O => []
  | S k' => digit_list k' (n / 10) ++ [digit_char (n mod 10)]
  end.

(** The text [-a.b] (or [a.b], [a], [-a]) with [k] digits before the point
    and [j] after it, as a JSON number or a numeric column prints it. *)
Definition decimal_text (neg : bool) (k : nat) (a : Z) (j : nat) (b : Z) : string :=
  string_of_list_ascii ((if neg then ["-"%char] else []) ++ digit_list k a ++
                        match j with O => [] | S _ => "."%char :: digit_list j b end).

Lemma read_num_digits k a rest acc n :
  0 <= a < 10 ^ Z.of_nat k ->
  read_num (digit_list k a ++ rest) acc n = read_num rest (acc * 10 ^ Z.of_nat k + a) (n + k).
Proof.
  revert a rest acc n; induction k as [|k IH]; intros a rest acc n Ha; simpl.
  - replace (n + 0)%nat with n by lia. f_equal. simpl in Ha. lia.
  - rewrite Nat2Z.inj_succ, Z.pow_succ_r in Ha by lia.
    rewrite <- app_assoc, IH by (split; [apply Z.div_pos|apply Z.div_lt_upper_bound]; lia).
    simpl. rewrite digit_val_char by (apply Z.mod_pos_bound; lia).
    replace (n + S k)%nat with (S (n + k)) by lia. f_equal.
    rewrite Nat2Z.inj_succ, Z.pow_succ_r by lia.
    pose proof (Z.div_mod a 10 ltac:(lia)). lia.
Qed.

Lemma digit_list_length k a : length (digit_list k a) = k.
Proof. revert a; induction k; intros; simpl; [done|]. rewrite length_app, IHk. simpl. lia. Qed.

Lemma digit_list_digits k a : Forall (fun c => is_Some (digit_val c)) (digit_list k a).
Proof.
  revert a; induction k as [|k IH]; intros; simpl; [done|]. apply Forall_app. split; [done|].
  constructor; [|done]. rewrite digit_val_char by (apply Z.mod_pos_bound; lia). by eexists.
Qed.

Lemma drop_spaces_id l : Forall (fun c => is_space c = false) l -> drop_spaces l = l.
Proof. destruct l as [|c l]; [done|]. intros [Hc _]%Forall_cons. simpl. by rewrite Hc. Qed.

(** Text without white space is its own [strip]. *)
Lemma strip_id l : Forall (fun c => is_space c = false) l -> strip (string_of_list_ascii l) = l.
Proof.
  intros Hl. unfold strip. rewrite list_ascii_of_string_of_list_ascii, (drop_spaces_id l Hl).
  rewrite (drop_spaces_id (rev l)) by (by apply Forall_rev). apply rev_involutive.
Qed.

Lemma digit_not_space c : is_Some (digit_val c) -> is_space c = false.
Proof.
  intros [d Hd]. destruct (digit_val_spec c d Hd) as [Hr <-].
  assert (d = 0 \/ d = 1 \/ d = 2 \/ d = 3 \/ d = 4 \/ d = 5 \/ d = 6 \/ d = 7 \/ d = 8 \/ d = 9)
    as H by lia.
  repeat (destruct H as [->|H]; [reflexivity|]). subst. reflexivity.
Qed.

(** A text that starts with a digit has no sign. *)
Lemma read_sign_digits k a rest :
  (1 <= k)%nat -> read_sign (digit_list k a ++ rest) = (1, digit_list k a ++ rest).
Proof.
  intros Hk. pose proof (digit_list_length k a) as Hl. pose proof (digit_list_digits k a) as Hd.
  destruct (digit_list k a) as [|c l]; [simpl in Hl; lia|]. apply Forall_cons in Hd as [[d Hc] _].
  simpl. destruct (Ascii.eqb_spec c "-"); [subst; discriminate|].
  destruct (Ascii.eqb_spec c "+"); [subst; discriminate|]. done.
Qed.

Lemma decimal_text_no_space (neg : bool) k a j b :
  Forall (fun c => is_space c = false)
    ((if neg then ["-"%char] else []) ++ digit_list k a ++
     match j with O => [] | S _ => "."%char :: digit_list j b end).
Proof.
  pose proof (Forall_impl _ _ _ (digit_list_digits k a) digit_not_space) as Ha.
  pose proof (Forall_impl _ _ _ (digit_list_digits j b) digit_not_space) as Hb.
  apply Forall_app. split; [destruct neg; [apply Forall_singleton; reflexivity|apply Forall_nil; done]|].
  apply Forall_app. split; [exact Ha|].
  destruct j; [apply Forall_nil; done|]. apply Forall_cons. split; [reflexivity|exact Hb].
Qed.

(** [simpl] below must not unfold the printed digits. *)
#[local] Arguments digit_list : simpl never.

(** C24: a decimal number printed as text, [-a.b] with [k >= 1] digits
    before the point and [j] after, reads back as its value: the Hours
    text of a ticket is not changed by [pd.to_numeric]. *)
Theorem parse_decimal_text neg k a j b :
  (1 <= k)%nat -> 0 <= a < 10 ^ Z.of_nat k -> 0 <= b < 10 ^ Z.of_nat j ->
  exists q, parse_decimal (decimal_text neg k a j b) = Some q /\
    (q == inject_Z ((if neg then -1 else 1) * (a * 10 ^ Z.of_nat j + b)) / inject_Z (10 ^ Z.of_nat j))%Q.
Proof.
  intros Hk Ha Hb. unfold parse_decimal, decimal_text. rewrite strip_id by apply decimal_text_no_space.
  assert (Hs : read_sign ((if neg then ["-"%char] else []) ++ digit_list k a ++
                          match j with O => [] | S _ => "."%char :: digit_list j b end)
               = (if neg then -1 else 1, digit_list k a ++
                          match j with O => [] | S _ => "."%char :: digit_list j b end)).
  { destruct neg; [reflexivity|]. by apply read_sign_digits. }
  rewrite Hs, read_num_digits by done. clear Hs.
  destruct j as [|j].
  - simpl in Hb. assert (b = 0) as -> by lia. simpl.
    rewrite (proj2 (Nat.eqb_neq _ 0)) by lia.
    eexists. split; [reflexivity|]. unfold scale10. simpl. unfold Qeq. simpl. lia.
  - simpl. rewrite <- (app_nil_r (digit_list (S j) b)), read_num_digits by done. simpl.
    rewrite (proj2 (Nat.eqb_neq _ 0)) by lia.
    eexists. split; [reflexivity|]. unfold scale10.
    rewrite (proj2 (Z.leb_gt _ _)) by lia. rewrite Z.opp_involutive.
    rewrite Qmake_Qdiv, Z2Pos.id by lia. reflexivity.
Qed.

Lemma parse_decimal_text_witness :
  decimal_text false 1 2 2 50 = "2.50" /\
  exists q, parse_decimal (decimal_text false 1 2 2 50) = Some q /\
    (q == inject_Z ((if false then -1 else 1) * (2 * 10 ^ Z.of_nat 2 + 50)) / inject_Z (10 ^ Z.of_nat 2))%Q.
Proof.
  split; [reflexivity|]. apply parse_decimal_text; [lia|simpl; lia|simpl; lia].
Defined.
