(* ===== verification/Frame.v ===== *)
(** * The fetched table as a DataFrame (DXC_Analytics.py lines 19-32)

    [fetch_data] selects every column of [live_dispatches] and builds
    [pd.DataFrame(response.data)].  A row is modelled by the table's
    schema: the two columns the script converts ([CheckInDate], [Hours])
    hold raw JSON values, the three label columns ([Site], [Subtype],
    [Item]) hold text or null.  The frame records which columns the table
    has, because indexing a column it lacks raises [KeyError]; an empty
    response gives a frame with no rows and no columns. *)

From S2P Require Import Prelude Numeric.

Record raw_row := mk_row {
  r_CheckInDate : json;
  r_Hours : json;
  r_Site : option string;
  r_Subtype : option string;
  r_Item : option string }.

Record frame := mk_frame {
  f_cols : list string;
  f_rows : list raw_row }.

(** [pd.DataFrame(response.data)] for a table with columns [table_cols]. *)
Definition fetch_data (table_cols : list string) (data : list raw_row) : frame :=
  mk_frame (match data with [] => [] | _ => table_cols end) data.

(** [DataFrame.empty]: no rows or no columns. *)
Definition df_empty (f : frame) : bool :=
  match f_cols f, f_rows f with
  | [], _ | _, [] => true
  | _, _ => false
  end.

Definition has_col (f : frame) (k : string) : bool := bool_decide (k ∈ f_cols f).

(** [df[k]], read through the field [field] of each row. *)
Definition get_column {A} (f : frame) (k : string) (field : raw_row -> A) : result (list A) :=
  if has_col f k then Ok (map field (f_rows f)) else Err (KeyError k).
