(* ===== verification/Preprocess.v ===== *)
(** * Pre-processing (DXC_Analytics.py lines 35-41)

    Three column assignments run before any section is drawn:
    - [pd.to_datetime(df['CheckInDate'])]: pandas 2 infers one format from
      the first non-null string and applies it to every string of the
      column; nulls and the NaT strings become NaT; with no string to infer
      from, numbers are read as nanoseconds since the epoch;
    - [pd.to_numeric(df.get('Hours', zeros), errors='coerce').fillna(0)];
    - [df['CheckInDate'].dt.to_period('M').astype(str)] as
      [month_year_str].
    The result is one [dispatch] per fetched row; the label columns are
    carried through unchanged. *)

From S2P Require Import Prelude Datetime Calendar Numeric Frame.
Open Scope Z_scope.

Record dispatch := mk_dispatch {
  d_CheckInDate : dt_cell;
  d_Hours : Q;
  d_month_year_str : string;
  d_Site : option string;
  d_Subtype : option string;
  d_Item : option string }.

(** The frame after pre-processing: its columns and its rows. *)
Record pframe := mk_pframe {
  p_cols : list string;
  p_rows : list dispatch }.

(** ** [pd.to_datetime] on the column *)

(** Strings pandas reads as NaT. *)
Definition nat_strings : list string := [""; "NaT"; "nat"; "NAT"; "nan"; "NaN"; "NAN"].

Definition is_nat_string (s : string) : bool := bool_decide (s ∈ nat_strings).

Fixpoint first_non_null (col : list json) : option json :=
  match col with
  | [] => None
  | JNull :: col' => first_non_null col'
  | JStr s :: col' => if is_nat_string s then first_non_null col' else Some (JStr s)
  | v :: _ => Some v
  end.

(** The inferred format: the shape of the first non-null value when it is
    an ISO string. *)
Definition guess_format (col : list json) : option iso_shape :=
  match first_non_null col with
  | Some (JStr s) => c ← parse_iso s; Some (c_shape c)
  | _ => None
  end.

(** A number is a count of nanoseconds; its fraction is dropped. *)
Definition epoch_ns (q : Q) : Z := Z.quot (Qnum q) (Zpos (Qden q)).

Definition to_datetime_cell (fmt : option iso_shape) (v : json) : result dt_cell :=
  match v with
  | JNull => Ok None
  | JStr s => if is_nat_string s then Ok None else t <- to_datetime_str fmt s ;; Ok (Some t)
  | JNum q =>
      match fmt with
      | Some _ => Err (ValueError "number in a formatted column")
      | None =>
          let t := epoch_ns q in
          if in_ns_range t then Ok (Some t) else Err (OutOfBoundsDatetime "number")
      end
  | JBool _ =>
      match fmt with
      | Some _ => Err (ValueError "bool in a formatted column")
      | None => Err (TypeError "bool is not convertible to datetime")
      end
  end.

Definition to_datetime_col (col : list json) : result (list dt_cell) :=
  traverse_res (to_datetime_cell (guess_format col)) col.

(** ** The Hours column *)

(** [df.get('Hours', pd.Series([0] * len(df)))] then the coercion. *)
Definition hours_col (f : frame) : list Q :=
  match get_column f "Hours" r_Hours with
  | Ok col => map hours_value col
  | Err _ => repeat 0%Q (length (f_rows f))
  end.

(** ** The whole pass *)

Definition mk_row_of (r : raw_row) (t : dt_cell) (h : Q) : dispatch :=
  mk_dispatch t h (month_year_str t) (r_Site r) (r_Subtype r) (r_Item r).

Fixpoint zip3 (rs : list raw_row) (ts : list dt_cell) (hs : list Q) : list dispatch :=
  match rs, ts, hs with
  | r :: rs', t :: ts', h :: hs' => mk_row_of r t h :: zip3 rs' ts' hs'
  | _, _, _ => []
  end.

Definition preprocess (f : frame) : result pframe :=
  dates <- get_column f "CheckInDate" r_CheckInDate ;;
  ts <- to_datetime_col dates ;;
  let cols := f_cols f ++ (if has_col f "Hours" then [] else ["Hours"]) ++ ["month_year_str"] in
  Ok (mk_pframe cols (zip3 (f_rows f) ts (hours_col f))).

(** [df[k]] or [df.groupby(k)] on the pre-processed frame: [KeyError] when
    the table has no such column. *)
Definition need_col (p : pframe) (k : string) : result unit :=
  if bool_decide (k ∈ p_cols p) then Ok tt else Err (KeyError k).

(** The non-null test of [CheckInDate], which the ['count'] aggregations
    count. *)
Definition has_date (d : dispatch) : bool :=
  match d_CheckInDate d with Some _ => true | None => false end.

(** The rows of a pre-processed table, none when pre-processing fails
    (used to state facts about example tables). *)
Definition rows_of (f : frame) : list dispatch :=
  match preprocess f with Ok p => p_rows p | Err _ => [] end.

(** A small table: one dated and one undated row, no Hours column. *)
Definition demo_pre_frame : frame :=
  mk_frame ["CheckInDate"] [mk_row (JStr "2024-03-01") JNull None None None;
                            mk_row JNull (JStr "1.5") None None None].

(** ** Properties of the pass *)

Lemma traverse_res_length {A B} (f : A -> result B) l l' :
  traverse_res f l = Ok l' -> length l' = length l.
Proof.
  revert l'; induction l as [|x l IH]; simpl; intros l' H; [now injection H as <-|].
  destruct (f x); [|discriminate]. simpl in H.
  destruct (traverse_res f l); [|discriminate]. simpl in H. injection H as <-. simpl. f_equal. auto.
Qed.

Lemma hours_col_length f : length (hours_col f) = length (f_rows f).
Proof.
  unfold hours_col, get_column. destruct (has_col f "Hours"); simpl.
  - by rewrite !length_map.
  - by rewrite repeat_length.
Qed.

Lemma zip3_length rs ts hs :
  length ts = length rs -> length hs = length rs -> length (zip3 rs ts hs) = length rs.
Proof.
  revert ts hs; induction rs as [|r rs IH]; intros [|t ts] [|h hs]; simpl; try lia.
  intros. f_equal. apply IH; lia.
Qed.

Lemma zip3_month_key rs ts hs :
  Forall (fun d => d_month_year_str d = month_year_str (d_CheckInDate d)) (zip3 rs ts hs).
Proof.
  revert ts hs; induction rs as [|r rs IH]; intros [|t ts] [|h hs]; simpl; constructor; auto.
Qed.

Lemma traverse_res_Ok_elem {A B} (f : A -> result B) l l' x :
  traverse_res f l = Ok l' -> x ∈ l -> exists y, f x = Ok y.
Proof.
  revert l'; induction l as [|a l IH]; simpl; intros l' H Hx; [set_solver|].
  destruct (f a) as [b|e] eqn:Ea; [|discriminate]. simpl in H.
  destruct (traverse_res f l) as [l''|e] eqn:El; [|discriminate].
  apply elem_of_cons in Hx as [->|Hx]; [eauto|]. eauto.
Qed.

(** The pass, when it succeeds, keeps one row per fetched row, and the
    month key of each row is the period string of that row's own date. *)
Lemma preprocess_rows f p :
  preprocess f = Ok p ->
  length (p_rows p) = length (f_rows f) /\
  Forall (fun d => d_month_year_str d = month_year_str (d_CheckInDate d)) (p_rows p).
Proof.
  unfold preprocess, get_column. destruct (has_col f "CheckInDate"); simpl; [|discriminate].
  destruct (to_datetime_col _) as [ts|e] eqn:E; simpl; [|discriminate].
  intros [= <-]. simpl. split; [|apply zip3_month_key].
  apply zip3_length; [|apply hours_col_length].
  apply traverse_res_length in E. by rewrite E, length_map.
Qed.

(** C25: A table without [CheckInDate] stops the script at line 35. *)
Theorem preprocess_missing_date f :
  has_col f "CheckInDate" = false -> preprocess f = Err (KeyError "CheckInDate").
Proof. intros H. unfold preprocess, get_column. by rewrite H. Qed.

(** C22: Once pandas has inferred a format from the first non-null string, a
    later string of another ISO shape makes the whole conversion fail:
    malformed dates are not replaced by a default. *)
Theorem to_datetime_mixed_shapes col s1 s2 c1 c2 :
  first_non_null col = Some (JStr s1) -> parse_iso s1 = Some c1 ->
  JStr s2 ∈ col -> is_nat_string s2 = false -> parse_iso s2 = Some c2 ->
  c_shape c2 <> c_shape c1 ->
  exists e, to_datetime_col col = Err e.
Proof.
  intros Hf P1 Hin Hn P2 Hsh. destruct (to_datetime_col col) as [ts|e] eqn:E; [exfalso|eauto].
  destruct (traverse_res_Ok_elem _ _ _ _ E Hin) as [y Hy].
  unfold guess_format in Hy. rewrite Hf, P1 in Hy. simpl in Hy. rewrite Hn in Hy.
  unfold to_datetime_str in Hy. rewrite P2 in Hy. unfold shape_ok in Hy.
  rewrite bool_decide_false in Hy by congruence. rewrite andb_false_r in Hy. discriminate.
Qed.

Lemma preprocess_missing_date_witness :
  has_col (mk_frame ["Hours"] []) "CheckInDate" = false /\
  preprocess (mk_frame ["Hours"] []) = Err (KeyError "CheckInDate").
Proof. split; [reflexivity|]. apply preprocess_missing_date. reflexivity. Defined.

Lemma to_datetime_mixed_shapes_witness :
  exists e, to_datetime_col [JStr "2024-01-05T10:00:00+00:00"; JStr "2024-01-06T10:00:00.5+00:00"] = Err e.
Proof.
  apply (to_datetime_mixed_shapes _ "2024-01-05T10:00:00+00:00" "2024-01-06T10:00:00.5+00:00"
           (mk_civil 2024 1 5 10 0 0 0 (mk_shape (Some ("T"%char, true, false)) true))
           (mk_civil 2024 1 6 10 0 0 500000000 (mk_shape (Some ("T"%char, true, true)) true)));
    try reflexivity.
  - apply elem_of_cons. right. apply elem_of_cons. by left.
  - discriminate.
Defined.

(** ** Month keys of pre-processed rows *)

Lemma pre_month_key f p d :
  preprocess f = Ok p -> d ∈ p_rows p -> d_month_year_str d = month_year_str (d_CheckInDate d).
Proof.
  intros Hp Hd. destruct (preprocess_rows f p Hp) as [_ Hf].
  rewrite Forall_forall in Hf. by apply Hf.
Qed.

Lemma pre_month_le_NaT f p d :
  preprocess f = Ok p -> d ∈ p_rows p -> String.le (d_month_year_str d) "NaT".
Proof. intros Hp Hd. rewrite (pre_month_key f p d Hp Hd). apply month_key_le_NaT. Qed.

Lemma pre_month_NaT f p d :
  preprocess f = Ok p -> d ∈ p_rows p -> d_month_year_str d = "NaT" <-> has_date d = false.
Proof.
  intros Hp Hd. rewrite (pre_month_key f p d Hp Hd), month_year_str_NaT.
  unfold has_date. destruct (d_CheckInDate d); naive_solver.
Qed.

(** ** The dates of pre-processed rows are in range *)

Lemma to_datetime_str_range fmt s t : to_datetime_str fmt s = Ok t -> in_ns_range t = true.
Proof.
  unfold to_datetime_str. destruct (parse_iso s); [|discriminate].
  destruct (_ && _); [|discriminate].
  destruct (in_ns_range _) eqn:E; [intros [= <-]; exact E|discriminate].
Qed.

Lemma to_datetime_cell_range fmt v t : to_datetime_cell fmt v = Ok (Some t) -> in_ns_range t = true.
Proof.
  destruct v as [|b|q|s]; simpl.
  - discriminate.
  - destruct fmt; discriminate.
  - destruct fmt; [discriminate|]. destruct (in_ns_range _) eqn:E; [intros [= <-]; exact E|discriminate].
  - destruct (is_nat_string s); [discriminate|].
    destruct (to_datetime_str fmt s) eqn:E; simpl; [intros [= <-]|discriminate].
    by eapply to_datetime_str_range.
Qed.

Lemma traverse_res_Ok_inv {A B} (f : A -> result B) l l' y :
  traverse_res f l = Ok l' -> y ∈ l' -> exists x, x ∈ l /\ f x = Ok y.
Proof.
  revert l'; induction l as [|a l IH]; simpl; intros l' H Hy.
  - injection H as <-. set_solver.
  - destruct (f a) as [b|e] eqn:Ea; [|discriminate]. simpl in H.
    destruct (traverse_res f l) as [l''|e] eqn:El; [|discriminate]. simpl in H. injection H as <-.
    apply elem_of_cons in Hy as [->|Hy]; [exists a; split; [set_solver|done]|].
    destruct (IH l'' eq_refl Hy) as (x & Hx & Hfx). exists x. split; [set_solver|done].
Qed.

Lemma zip3_dates rs ts hs d : d ∈ zip3 rs ts hs -> d_CheckInDate d ∈ ts.
Proof.
  revert ts hs; induction rs as [|r rs IH]; intros [|t ts] [|h hs]; simpl; try set_solver.
Qed.

(** C10: every date of a pre-processed row is a [datetime64[ns]] value in
    range: pd.to_datetime raises rather than keep a date outside it, so its
    year is between 1677 and 2262 and its month between 1 and 12. *)
Theorem preprocess_dates_bounded f p d t :
  preprocess f = Ok p -> d ∈ p_rows p -> d_CheckInDate d = Some t ->
  in_ns_range t = true /\ 1677 <= year_of_ns t <= 2262 /\ 1 <= month_of_ns t <= 12.
Proof.
  unfold preprocess, get_column. destruct (has_col f "CheckInDate"); simpl; [|discriminate].
  destruct (to_datetime_col _) as [ts|e] eqn:E; simpl; [|discriminate].
  intros [= <-] Hd Ht. simpl in Hd. apply zip3_dates in Hd. rewrite Ht in Hd.
  destruct (traverse_res_Ok_inv _ _ _ _ E Hd) as (v & _ & Hv).
  pose proof (to_datetime_cell_range _ _ _ Hv) as Hr. split; [done|]. by apply year_of_ns_bounds.
Qed.

Lemma preprocess_dates_bounded_witness :
  exists p d t, preprocess demo_pre_frame = Ok p /\ d ∈ p_rows p /\ d_CheckInDate d = Some t /\
  in_ns_range t = true /\ 1677 <= year_of_ns t <= 2262 /\ 1 <= month_of_ns t <= 12.
Proof.
  pose (p := match preprocess demo_pre_frame with Ok p => p | Err _ => mk_pframe [] [] end).
  assert (Hp : preprocess demo_pre_frame = Ok p) by (vm_compute; reflexivity).
  pose (d := default (mk_dispatch None 0 "NaT" None None None) (head (p_rows p))).
  assert (Hd : d ∈ p_rows p) by (apply list_elem_of_In; vm_compute; auto).
  pose (t := default 0 (d_CheckInDate d)).
  assert (Ht : d_CheckInDate d = Some t) by (vm_compute; reflexivity).
  exists p, d, t. split; [exact Hp|]. split; [exact Hd|]. split; [exact Ht|].
  exact (preprocess_dates_bounded demo_pre_frame p d t Hp Hd Ht).
Defined.

(** ** The Hours column of each row *)





