(* ===== verification/GroupBy.v ===== *)
(** * pandas [groupby] and its aggregations

    [df.groupby(key).agg(name=(col, 'count'))] and [.agg(name=(col,
    'mean'))] are used by every section of DXC_Analytics.py (lines 74,
    137, 142, 163, 201, 260).  pandas' defaults are modelled: [sort=True]
    orders the groups by key, [dropna=True] leaves out rows whose key is
    null, ['count'] counts the non-null values of the column in a group and
    ['mean'] averages them.  The Section is generic in the row type, the
    key and the key order; the files of the sections instantiate it. *)

From S2P Require Import Prelude.

Section GroupBy.
Context {A K : Type} `{EqDecision K}.
Context (le : relation K) `{!RelDecision le}.
(** The key of a row; [None] is a null key. *)
Context (key : A -> option K).

Definition group_keys (l : list A) : list K := merge_sort le (remove_dups (omap key l)).

Definition group_of (l : list A) (k : K) : list A := filter (fun a => key a = Some k) l.

Definition groupby (l : list A) : list (K * list A) :=
  map (fun k => (k, group_of l k)) (group_keys l).

(** The rows [dropna=True] keeps. *)
Definition keyed (l : list A) : list A := filter (fun a => is_Some (key a)) l.

(** ['count'] of a column whose non-null test is [nn]. *)
Definition agg_count (nn : A -> bool) (g : list A) : nat := length (filter (fun a => nn a = true) g).

(** ['mean'] of a column read as [v] (no nulls left in it). *)
Definition agg_mean (v : A -> Q) (g : list A) : option Q := qmean (map v g).

(** A table of one aggregation per group, in group order. *)
Definition agg_table {B} (agg : list A -> B) (l : list A) : list (K * B) :=
  map (fun kg => (kg.1, agg kg.2)) (groupby l).
End GroupBy.

Section GroupByFacts.
Context {A K : Type} `{EqDecision K}.
Context (le : relation K) `{!RelDecision le}.
Context (key : A -> option K).

(** A row's key belongs to a list of keys. *)
Definition key_in (ks : list K) (a : A) : Prop :=
  match key a with Some k => k ∈ ks | None => False end.

#[local] Instance key_in_dec ks a : Decision (key_in ks a).
Proof. unfold key_in. destruct (key a); apply _. Defined.

Lemma elem_of_group_keys l k :
  k ∈ group_keys le key l <-> exists a, a ∈ l /\ key a = Some k.
Proof.
  unfold group_keys. rewrite (merge_sort_Permutation le), elem_of_remove_dups.
  apply list_elem_of_omap.
Qed.

Lemma NoDup_group_keys l : NoDup (group_keys le key l).
Proof. unfold group_keys. rewrite (merge_sort_Permutation le). apply NoDup_remove_dups. Qed.

Lemma group_keys_sorted `{!Total le, !Transitive le} l :
  StronglySorted le (group_keys le key l).
Proof. apply StronglySorted_merge_sort; apply _. Qed.

Lemma concat_groups_perm l ks :
  NoDup ks -> concat (map (group_of key l) ks) ≡ₚ filter (key_in ks) l.
Proof.
  induction ks as [|k ks IH]; intros Hnd; simpl.
  - rewrite filter_all_false; [done|]. unfold key_in. intros a. destruct (key a); set_solver.
  - apply NoDup_cons in Hnd as [Hk Hnd]. rewrite IH by done. unfold group_of.
    rewrite filter_app_disjoint.
    + apply Permutation_refl'. apply list_filter_iff. intros a. unfold key_in.
      destruct (key a); set_solver.
    + intros a Hka Hin. unfold key_in in Hin. rewrite Hka in Hin. done.
Qed.

(** [dropna=True]: the groups together hold exactly the rows with a
    key, each once. *)
Lemma groupby_partition l :
  concat (map snd (groupby le key l)) ≡ₚ keyed key l.
Proof.
  unfold groupby. rewrite map_map. simpl.
  rewrite concat_groups_perm by apply NoDup_group_keys.
  apply Permutation_refl'. apply filter_ext_in. intros a Ha. unfold key_in.
  destruct (key a) as [k|] eqn:E; split; intros H; try done.
  apply elem_of_group_keys. eauto.
Qed.

Lemma group_of_key l k a : a ∈ group_of key l k -> key a = Some k.
Proof. unfold group_of. rewrite list_elem_of_filter. tauto. Qed.

Lemma group_nonempty l k : k ∈ group_keys le key l -> group_of key l k <> [].
Proof.
  intros (a & Ha & Hk)%elem_of_group_keys Hnil.
  assert (a ∈ group_of key l k) as Hin by (unfold group_of; apply list_elem_of_filter; done).
  rewrite Hnil in Hin. set_solver.
Qed.
Lemma sum_counts_concat (nn : A -> bool) (G : list (K * list A)) :
  sum_list_with snd (map (fun kg => (kg.1, agg_count nn kg.2)) G)
  = agg_count nn (concat (map snd G)).
Proof.
  unfold agg_count. induction G as [|[k g] G IH]; [done|]. simpl.
  rewrite filter_app, length_app, <- IH. reflexivity.
Qed.

(** Summing a ['count'] column over the groups counts the column over
    the rows that have a key. *)
(** The key column of an aggregated table is the sorted group keys. *)
Lemma agg_table_keys {B} (agg : list A -> B) l :
  map fst (agg_table le key agg l) = group_keys le key l.
Proof. unfold agg_table, groupby. rewrite !map_map. simpl. apply map_id. Qed.

Lemma agg_count_sum nn l :
  sum_list_with snd (agg_table le key (agg_count nn) l) = agg_count nn (keyed key l).
Proof.
  unfold agg_table. rewrite sum_counts_concat. unfold agg_count.
  by rewrite groupby_partition.
Qed.
End GroupByFacts.

Section GroupByCounts.
Context {A K : Type} `{EqDecision K}.
Context (le : relation K) `{!RelDecision le}.
Context (key : A -> option K).

Lemma group_of_subset l k a : a ∈ group_of key l k -> a ∈ l.
Proof. unfold group_of. rewrite list_elem_of_filter. tauto. Qed.

(** When no row has a value in the counted column, every count is 0. *)
Lemma agg_count_table_zero nn l :
  (forall a, a ∈ l -> nn a = false) ->
  Forall (fun kc => kc.2 = 0%nat) (agg_table le key (agg_count nn) l).
Proof.
  intros Hz. unfold agg_table, groupby. rewrite map_map. apply Forall_forall.
  intros kc (k & -> & _)%elem_of_map_iff. simpl. unfold agg_count.
  rewrite (filter_ext_in _ (fun _ => False)); [rewrite filter_all_false; [done|tauto]|].
  intros a Ha%group_of_subset. rewrite Hz by done. naive_solver.
Qed.
End GroupByCounts.

(** Summing a count over any list of keys. *)
Lemma sum_counts_keys {A K} (nn : A -> bool) (g : K -> list A) (ks : list K) :
  sum_list_with (fun k => agg_count nn (g k)) ks = agg_count nn (concat (map g ks)).
Proof.
  unfold agg_count. induction ks as [|k ks IH]; [done|]. simpl.
  rewrite filter_app, length_app, <- IH. reflexivity.
Qed.
