(* ===== verification/Widgets.v ===== *)
(** * What the script shows: Streamlit elements and Python formatting

    The sections of DXC_Analytics.py emit Streamlit elements in order;
    this file gives them a type ([element]), models [st.selectbox] (the
    only input widget the script reads), Python's [sorted], and the two
    number formats the script prints: [str] of an int (a metric's value)
    and [f"{x:.2f}"] of a float (lines 66 and the chart tooltips). *)

From S2P Require Import Prelude.
From Stdlib Require Import DecimalString Qabs.
Open Scope Z_scope.

(** ** Python formatting *)

Definition nat_str (n : nat) : string := NilEmpty.string_of_uint (Nat.to_uint n).

Definition Z_str (z : Z) : string :=
  (if z <? 0 then "-" else "") +:+ nat_str (Z.to_nat (Z.abs z)).

(** [round(x * 100)] for [x >= 0], ties to even (Python formats the exact
    value with round-half-even). *)
Definition round_cents (x : Q) : Z :=
  let n := 100 * Qnum x in
  let d := Zpos (Qden x) in
  let fl := n / d in
  let r := n mod d in
  if 2 * r <? d then fl
  else if d <? 2 * r then fl + 1
  else if Z.even fl then fl else fl + 1.

(** [f"{x:.2f}"]; NaN prints as ["nan"].  The sign is kept even when the
    value rounds to zero, as Python does. *)
Definition fmt_2f (x : option Q) : string :=
  match x with
  | None => "nan"
  | Some q =>
      let c := round_cents (Qabs q) in
      (if Qnum q <? 0 then "-" else "") +:+ nat_str (Z.to_nat (c / 100)) +:+ "."
        +:+ String (digit_char ((c mod 100) / 10)) (String (digit_char (c mod 10)) "")
  end.

(** ** Python's [sorted] on strings *)

Definition py_sorted (l : list string) : list string := merge_sort String.le l.

Definition py_sorted_desc (l : list string) : list string := rev (py_sorted l).

(** ** Streamlit *)

(** The data table of a chart, with what decides the order of its x axis:
    [sort=None] keeps the table's order, [sort='-y'] orders by descending
    count, and an x field with no [sort] (the trend chart) is ordered
    ascending, Vega-Lite's default for a discrete field. *)
Inductive chart :=
| BarCount (title : string) (sort_desc : bool) (rows : list (string * nat))
| BarAvg (title : string) (rows : list (string * option Q))
| TrendLines (rows : list (string * nat * option Q))
| LineCount (title : string) (rows : list (string * nat))
| Pie (title : string) (rows : list (string * nat)).

Inductive element :=
| Title (s : string)
| Expander (label : string)
| Selectbox (label : string) (options : list string) (value : option string)
| Metric (label value : string)
| Markdown (s : string)
| Subheader (s : string)
| Chart (c : chart)
| Info (s : string)
| Warning (s : string).

(** The order of the x axis of a line chart of the trend: the distinct
    labels, ascending. *)
Definition trend_x_axis (rows : list (string * nat * option Q)) : list string :=
  py_sorted (remove_dups (map (fun r => r.1.1) rows)).

(** [st.selectbox(label, options, index)]: the value the user picked when
    it is one of the options, else the option at [index]; [None] when there
    are no options. *)
Definition selectbox (opts : list string) (index : nat) (picked : option string) : option string :=
  match picked with
  | Some c => if bool_decide (c ∈ opts) then Some c else opts !! index
  | None => opts !! index
  end.

(** [l.index(x)]: the position of the first occurrence. *)
Fixpoint index_of (x : string) (l : list string) : option nat :=
  match l with
  | [] => None
  | y :: l' => if String.eqb x y then Some 0%nat else S <$> index_of x l'
  end.

(** The double quote character, which f-strings of the script print. *)
Definition dq : string := String (Ascii.ascii_of_nat 34) EmptyString.

(** [f"{v}"] of a selectbox value: [None] prints as ["None"]. *)
Definition show_opt (v : option string) : string :=
  match v with Some s => s | None => "None" end.

(** ** Running a section

    A section emits elements in order and may raise; what it emitted
    before raising stays on the page.  [render A] pairs the emitted
    elements with the section's result. *)

Definition render (A : Type) : Type := list element * result A.

Definition rret {A} (a : A) : render A := ([], Ok a).

Definition emit (e : element) : render unit := ([e], Ok tt).

Definition rfail {A} (e : py_error) : render A := ([], Err e).

Definition rbind {A B} (m : render A) (k : A -> render B) : render B :=
  match m with
  | (o, Ok a) => let '(o', r) := k a in (o ++ o', r)
  | (o, Err e) => (o, Err e)
  end.

Notation "x <~ m ;; k" := (rbind m (fun x => k))
  (at level 60, m at next level, right associativity) : dxc_scope.
Notation "m ~;; k" := (rbind m (fun _ => k))
  (at level 60, right associativity) : dxc_scope.

(** Lift a pandas result: an exception is raised where it happens. *)
Definition rlift {A} (r : result A) : render A := ([], r).

(** ** Facts used by the sections *)

Lemma rbind_emit_fst {B} e (k : unit -> render B) : (rbind (emit e) k).1 = e :: (k tt).1.
Proof. unfold rbind, emit. destruct (k tt). reflexivity. Qed.

Lemma rbind_emit_snd {B} e (k : unit -> render B) : (rbind (emit e) k).2 = (k tt).2.
Proof. unfold rbind, emit. destruct (k tt). reflexivity. Qed.

Lemma rbind_emit {B} e (k : unit -> render B) : rbind (emit e) k = (e :: (k tt).1, (k tt).2).
Proof. unfold rbind, emit. by destruct (k tt). Qed.

(** A step that returns [a] is followed by the rest of the run on [a]. *)
Lemma rbind_Ok {A B} (m : render A) (k : A -> render B) a :
  m.2 = Ok a -> rbind m k = (m.1 ++ (k a).1, (k a).2).
Proof. destruct m as [o r]. simpl. intros ->. by destruct (k a). Qed.

(** What a run draws when its first step returns. *)
Lemma rbind_fst_Ok {A B} (m : render A) (k : A -> render B) a :
  m.2 = Ok a -> (rbind m k).1 = m.1 ++ (k a).1.
Proof. destruct m as [o r]. simpl. intros ->. by destruct (k a). Qed.

(** An exception skips the rest of the run. *)
Lemma rbind_Err {A B} (m : render A) (k : A -> render B) e :
  m.2 = Err e -> rbind m k = (m.1, Err e).
Proof. destruct m as [o r]. simpl. by intros ->. Qed.

Lemma rbind_rlift_Ok {A B} (a : A) (k : A -> render B) : rbind (rlift (Ok a)) k = k a.
Proof. unfold rbind, rlift. by destruct (k a). Qed.

(** What a section emitted: what its first step emitted, then what the
    rest emitted when the first step returned. *)
Lemma elem_of_rbind_fst {A B} (m : render A) (k : A -> render B) x :
  x ∈ (rbind m k).1 -> x ∈ m.1 \/ exists a, m.2 = Ok a /\ x ∈ (k a).1.
Proof.
  destruct m as [o [a|e]]; simpl; [|auto].
  destruct (k a) as [o' r] eqn:E. simpl. intros [Hx|Hx]%elem_of_app; [auto|].
  right. exists a. by rewrite E.
Qed.

Lemma index_of_lt x l i : index_of x l = Some i -> (i < length l)%nat.
Proof.
  revert i; induction l as [|y l IH]; simpl; intros i; [done|].
  destruct (String.eqb x y); [intros [= <-]; lia|].
  destruct (index_of x l) as [j|]; simpl; [intros [= <-]|done]. specialize (IH j eq_refl). lia.
Qed.

(** [returns m P]: the section [m] ends without an exception and its
    result satisfies [P]. *)
Definition returns {A} (m : render A) (P : A -> Prop) : Prop :=
  match m.2 with Ok a => P a | Err _ => False end.

Lemma returns_bind {A B} (m : render A) (k : A -> render B) P :
  returns m (fun a => returns (k a) P) -> returns (rbind m k) P.
Proof.
  unfold returns, rbind. destruct m as [o [a|e]]; simpl; [|done].
  destruct (k a) as [o' r]. done.
Qed.

Lemma returns_emit e (P : unit -> Prop) : P tt -> returns (emit e) P.
Proof. done. Qed.

Lemma returns_rret {A} (a : A) (P : A -> Prop) : P a -> returns (rret a) P.
Proof. done. Qed.

Lemma returns_rlift_Ok {A} (a : A) (P : A -> Prop) : P a -> returns (rlift (Ok a)) P.
Proof. done. Qed.

Lemma returns_weaken {A} (m : render A) (P Q : A -> Prop) :
  (forall a, P a -> Q a) -> returns m P -> returns m Q.
Proof. unfold returns. destruct m.2; auto. Qed.

Lemma returns_snd {A} (m : render A) P : returns m P -> exists a, m.2 = Ok a /\ P a.
Proof. unfold returns. destruct m.2; eauto; done. Qed.

(** [returns] is used through its lemmas only: unfolding it would run a
    whole section during unification. *)
#[global] Opaque returns.

(** Walk a section step by step through its binds, emits and returns;
    what is left are the steps that may raise. *)
Ltac returns_steps :=
  repeat first
    [ simple apply returns_bind
    | simple apply returns_emit
    | simple apply returns_rret
    | simple apply returns_rlift_Ok
    | progress cbv beta zeta
    | match goal with |- True => exact I end
    | match goal with H : ?P |- ?P => exact H end ].

(** A step that is a whole section, discharged by that section's lemma
    [L] (which gives the postcondition [True]). *)
Ltac returns_section L :=
  eapply returns_weaken; [|apply L; done]; intros ? _.

(** Split a hypothesis [x ∈ (m1 ~;; m2 ~;; ...).1] into one case per step
    and close the cases of steps that emit another element. *)
Ltac emitted_cases H :=
  repeat (apply elem_of_rbind_fst in H as [H|(? & ? & H)]);
  try (simpl in H; rewrite ?list_elem_of_singleton in H;
       first [discriminate | by apply not_elem_of_nil in H]).

(** A selectbox with options and a valid index always yields one of
    them. *)
Lemma selectbox_elem_at opts i picked :
  (i < length opts)%nat -> exists v, selectbox opts i picked = Some v /\ v ∈ opts.
Proof.
  intros Hi. destruct (lookup_lt_is_Some_2 opts i Hi) as [o Ho].
  unfold selectbox. destruct picked as [c|]; [case_bool_decide|]; eauto using list_elem_of_lookup_2.
Qed.

Lemma selectbox_elem opts picked :
  opts <> [] -> exists v, selectbox opts 0 picked = Some v /\ v ∈ opts.
Proof. intros Hne. apply selectbox_elem_at. destruct opts; [done|simpl; lia]. Qed.

Lemma elem_of_py_sorted_desc x l : x ∈ py_sorted_desc l <-> x ∈ l.
Proof. unfold py_sorted_desc, py_sorted. by rewrite elem_of_rev_iff, (merge_sort_Permutation String.le). Qed.

Lemma last_of_sorted (l : list string) x z l' :
  StronglySorted String.le l -> l = l' ++ [z] -> x ∈ l -> String.le x z.
Proof.
  intros Hs -> Hx. apply elem_of_app in Hx as [Hx|Hx%list_elem_of_singleton].
  - eapply (StronglySorted_app_1_elem_of _ l' [z]); [done|done|set_solver].
  - subst. reflexivity.
Qed.

(** The greatest element of a sorted list is its last. *)
Lemma sorted_last_max (l : list string) x :
  StronglySorted String.le l -> x ∈ l -> (forall y, y ∈ l -> String.le y x) -> last l = Some x.
Proof.
  intros Hs Hx Hmax. destruct l as [|a s] eqn:E using rev_ind; [set_solver|].
  clear IHs. rewrite last_app. simpl. f_equal.
  apply (anti_symm String.le); [apply Hmax; set_solver|].
  apply (last_of_sorted (s ++ [a]) x a s); done.
Qed.

(** The greatest element heads the descending sort. *)
Lemma py_sorted_desc_head l x :
  x ∈ l -> (forall y, y ∈ l -> String.le y x) -> head (py_sorted_desc l) = Some x.
Proof.
  intros Hx Hmax. unfold py_sorted_desc, py_sorted. rewrite head_rev_last.
  pose proof (merge_sort_Permutation String.le l) as Hp.
  apply sorted_last_max; [apply StronglySorted_merge_sort; apply _|by rewrite Hp|].
  intros y Hy. apply Hmax. by rewrite <- Hp.
Qed.

(** In a strongly sorted list without repetitions, a smaller element
    comes first. *)
Lemma sorted_split_order (l : list string) x y :
  StronglySorted String.le l -> x ∈ l -> y ∈ l -> x <> y -> String.le x y ->
  exists l1 l2 l3, l = l1 ++ x :: l2 ++ y :: l3.
Proof.
  induction l as [|h l IH]; intros Hs Hx Hy Hne Hle; [set_solver|].
  apply StronglySorted_inv in Hs as [Hs Hf]. rewrite Forall_forall in Hf.
  apply elem_of_cons in Hx as [->|Hx], Hy as [->|Hy].
  - done.
  - apply list_elem_of_split in Hy as (l2 & l3 & ->). by exists [], l2, l3.
  - exfalso. apply Hne. apply (anti_symm String.le); [done|]. by apply Hf.
  - destruct (IH Hs Hx Hy Hne Hle) as (l1 & l2 & l3 & ->). by exists (h :: l1), l2, l3.
Qed.

Lemma py_sorted_order (l : list string) x y :
  x ∈ l -> y ∈ l -> x <> y -> String.le x y ->
  exists l1 l2 l3, py_sorted (remove_dups l) = l1 ++ x :: l2 ++ y :: l3.
Proof.
  intros Hx Hy Hne Hle. apply sorted_split_order; [apply StronglySorted_merge_sort; apply _|..|done|done];
    unfold py_sorted; rewrite (merge_sort_Permutation String.le), elem_of_remove_dups; done.
Qed.

(** ** Session state

    [st.session_state] as the script can see it: the key ['selection'],
    which lines 16-17 create, and the keys of the two widgets created with
    a [key]: ['breakdown_month_selector'] (line 47) and
    ['subtype_select_box'] (line 248), each present from the run that
    creates its widget.  A value stored under ['selection'] is [None] or a
    dict; the script only reads its entry ['Subtype'], a list of subtype
    values. *)

Inductive sel_value :=
| SelNone
| SelDict (entries : list (string * list (option string))).

Record session := mk_session {
  ss_selection : option sel_value;
  ss_breakdown_box : option string;
  ss_subtype_box : option string }.

Definition empty_session : session := mk_session None None None.

(** [bool(st.session_state)]: it holds some key. *)
Definition session_truthy (ss : session) : bool :=
  match ss_selection ss, ss_breakdown_box ss, ss_subtype_box ss with
  | None, None, None => false
  | _, _, _ => true
  end.

(** Lines 16-17. *)
Definition init_selection (ss : session) : session :=
  match ss_selection ss with
  | None => mk_session (Some SelNone) (ss_breakdown_box ss) (ss_subtype_box ss)
  | Some _ => ss
  end.

Fixpoint assoc_get {V} (k : string) (l : list (string * V)) : option V :=
  match l with
  | [] => None
  | (k', v) :: l' => if String.eqb k k' then Some v else assoc_get k l'
  end.

(** Lines 231-233: [st.session_state.selection.get('Subtype', [None])[0]]
    when the session state and its selection are truthy. *)
Definition chart_selection (ss : session) : result (option string) :=
  if session_truthy ss then
    match ss_selection ss with
    | None => Err (AttributeError "selection")
    | Some SelNone | Some (SelDict []) => Ok None
    | Some (SelDict d) =>
        match assoc_get "Subtype" d with
        | None => Ok None
        | Some [] => Err (IndexError "list index out of range")
        | Some (v :: _) => Ok v
        end
    end
  else Ok None.
