(* ===== verification/Breakdown.v ===== *)
(** * Section 1: Monthly Breakdown (DXC_Analytics.py lines 44-89)

    A month selector over the distinct [month_year_str] values, newest
    first; the rows of the chosen month; two metrics (their number and the
    mean of [Hours], printed with two decimals); and a bar chart of
    [groupby('Site')] counting [CheckInDate]. *)

From S2P Require Import Prelude Datetime Numeric Frame Preprocess GroupBy Widgets.

(** [sorted(df['month_year_str'].unique(), reverse=True)] (line 46). *)
Definition breakdown_month_options (rows : list dispatch) : list string :=
  py_sorted_desc (remove_dups (map d_month_year_str rows)).

(** [df[df['month_year_str'] == m]] (line 50). *)
Definition select_month (rows : list dispatch) (m : option string) : list dispatch :=
  filter (fun d => Some (d_month_year_str d) = m) rows.

(** Lines 74-76. *)
Definition tickets_per_site (sel : list dispatch) : list (string * nat) :=
  agg_table String.le d_Site (agg_count has_date) sel.

Record breakdown := mk_breakdown {
  bd_month : option string;
  bd_total : nat;
  bd_avg : option Q;
  bd_per_site : list (string * nat) }.

Definition section_breakdown (p : pframe) (picked : option string) : render breakdown :=
  let opts := breakdown_month_options (p_rows p) in
  let m := selectbox opts 0 picked in
  let sel := select_month (p_rows p) m in
  let total := length sel in
  let avg := qmean (map d_Hours sel) in
  emit (Expander "### **Monthly Breakdown**") ~;;
  emit (Selectbox "Select Month for Breakdown" opts m) ~;;
  emit (Metric "Total Tickets" (nat_str total)) ~;;
  emit (Metric "Avg Time to Close" (fmt_2f avg +:+ " hrs")) ~;;
  emit (Markdown "---") ~;;
  emit (Subheader ("Tickets Per Site for " +:+ show_opt m)) ~;;
  rlift (need_col p "Site") ~;;
  let tps := tickets_per_site sel in
  emit (Chart (BarCount ("Tickets Per Site in " +:+ show_opt m) false tps)) ~;;
  rret (mk_breakdown m total avg tps).

(** ** Example data: the records of the spec's scenario 5, and one more
    record whose check-in date is null. *)

Definition demo_cols : list string := ["CheckInDate"; "Hours"; "Site"; "Subtype"; "Item"].

Definition demo_rows : list raw_row :=
  [mk_row (JStr "2024-01-05") (JNum 2) (Some "A") None None;
   mk_row (JStr "2024-01-20") (JStr "bad") (Some "A") None None;
   mk_row (JStr "2024-02-01") (JNum 4) (Some "B") None None].

Definition demo_null_row : raw_row := mk_row JNull (JNum 4) (Some "B") None None.

(** ** Properties *)

Lemma elem_of_select_month rows m d :
  d ∈ select_month rows m <-> d ∈ rows /\ Some (d_month_year_str d) = m.
Proof. unfold select_month. rewrite list_elem_of_filter. tauto. Qed.

Lemma select_month_dated f p m d :
  preprocess f = Ok p -> d ∈ select_month (p_rows p) (Some m) ->
  has_date d = negb (bool_decide (m = "NaT")).
Proof.
  intros Hp (Hd & [= <-])%elem_of_select_month.
  pose proof (pre_month_NaT f p d Hp Hd) as Hn.
  destruct (has_date d), (bool_decide_reflect (d_month_year_str d = "NaT")); naive_solver.
Qed.

(** C1: in a month of real dates, the bars of "Tickets Per Site" add up
    to the "Total Tickets" metric when every ticket of the month names its
    site (spec, testable property 1). *)
Theorem site_counts_sum_total f p m :
  preprocess f = Ok p -> m <> "NaT" ->
  (forall d, d ∈ select_month (p_rows p) (Some m) -> is_Some (d_Site d)) ->
  sum_list_with snd (tickets_per_site (select_month (p_rows p) (Some m)))
  = length (select_month (p_rows p) (Some m)).
Proof.
  intros Hp Hm Hs. unfold tickets_per_site. rewrite agg_count_sum. unfold agg_count, keyed.
  rewrite list_filter_filter, filter_all_true; [done|].
  intros d Hd. split; [|auto]. erewrite select_month_dated by eauto.
  by rewrite bool_decide_false.
Qed.

Lemma site_counts_sum_total_witness :
  exists p, preprocess (fetch_data demo_cols demo_rows) = Ok p /\
  sum_list_with snd (tickets_per_site (select_month (p_rows p) (Some "2024-01")))
  = length (select_month (p_rows p) (Some "2024-01")).
Proof.
  eexists. split; [vm_compute; reflexivity|].
  apply (site_counts_sum_total (fetch_data demo_cols demo_rows)); [vm_compute; reflexivity|discriminate|].
  intros d Hd. vm_compute in Hd. repeat (apply elem_of_cons in Hd as [->|Hd]; [eexists; reflexivity|]).
  apply not_elem_of_nil in Hd. contradiction.
Defined.

Lemma month_options_le_NaT f p y :
  preprocess f = Ok p -> y ∈ breakdown_month_options (p_rows p) -> String.le y "NaT".
Proof.
  intros Hp Hy. unfold breakdown_month_options in Hy.
  rewrite elem_of_py_sorted_desc, elem_of_remove_dups, elem_of_map_iff in Hy.
  destruct Hy as (d & -> & Hd). by apply (pre_month_le_NaT f p).
Qed.

(** C12: when some ticket has no check-in date, the month selector of the
    Monthly Breakdown opens on the pseudo-month ["NaT"] (it sorts above
    every real month), and every bar of its "Tickets Per Site" chart is 0,
    while "Total Tickets" counts those tickets. *)
Theorem default_month_NaT f p :
  preprocess f = Ok p -> (exists d, d ∈ p_rows p /\ d_CheckInDate d = None) ->
  selectbox (breakdown_month_options (p_rows p)) 0 None = Some "NaT" /\
  Forall (fun kc => kc.2 = 0%nat) (tickets_per_site (select_month (p_rows p) (Some "NaT"))).
Proof.
  intros Hp (d0 & Hd0 & Hnat). split.
  - unfold selectbox. rewrite <- head_lookup. apply py_sorted_desc_head.
    + rewrite elem_of_remove_dups, elem_of_map_iff. exists d0. split; [|done].
      symmetry. apply (pre_month_NaT f p d0 Hp Hd0). unfold has_date. by rewrite Hnat.
    + intros y Hy. apply (month_options_le_NaT f p); [done|].
      unfold breakdown_month_options. by rewrite elem_of_py_sorted_desc.
  - apply agg_count_table_zero. intros d Hd.
    erewrite select_month_dated by eauto. by rewrite bool_decide_true.
Qed.

Lemma default_month_NaT_witness :
  exists p, preprocess (fetch_data demo_cols (demo_rows ++ [demo_null_row])) = Ok p /\
  (exists d, d ∈ p_rows p /\ d_CheckInDate d = None) /\
  selectbox (breakdown_month_options (p_rows p)) 0 None = Some "NaT" /\
  Forall (fun kc => kc.2 = 0%nat) (tickets_per_site (select_month (p_rows p) (Some "NaT"))).
Proof.
  eexists. split; [vm_compute; reflexivity|].
  assert (Hex : exists d, d ∈ p_rows (match preprocess (fetch_data demo_cols (demo_rows ++ [demo_null_row])) with Ok p => p | Err _ => mk_pframe [] [] end) /\ d_CheckInDate d = None).
  { exists (mk_dispatch None 4 "NaT" (Some "B") None None).
    split; [|reflexivity]. apply list_elem_of_In. vm_compute. auto 10. }
  split; [exact Hex|].
  apply (default_month_NaT (fetch_data demo_cols (demo_rows ++ [demo_null_row]))); [vm_compute; reflexivity|exact Hex].
Defined.

Lemma month_options_nonempty rows : rows <> [] -> breakdown_month_options rows <> [].
Proof.
  destruct rows as [|d rows]; [done|]. intros _ E.
  assert (d_month_year_str d ∈ breakdown_month_options (d :: rows)) as H.
  { unfold breakdown_month_options. rewrite elem_of_py_sorted_desc, elem_of_remove_dups. set_solver. }
  rewrite E in H. set_solver.
Qed.

Lemma select_chosen_nonempty rows picked v :
  selectbox (breakdown_month_options rows) 0 picked = Some v ->
  v ∈ breakdown_month_options rows -> select_month rows (Some v) <> [].
Proof.
  intros _ Hv E. unfold breakdown_month_options in Hv.
  rewrite elem_of_py_sorted_desc, elem_of_remove_dups, elem_of_map_iff in Hv.
  destruct Hv as (d & -> & Hd).
  assert (d ∈ select_month rows (Some (d_month_year_str d))) as H by (by apply elem_of_select_month).
  rewrite E in H. set_solver.
Qed.

(** C17: on a non-empty table the "Avg Time to Close" metric always shows
    a number: the month the selector yields always has tickets, so the
    NaN of an empty mean ("nan hrs") is never displayed. *)
Theorem breakdown_avg_shown p picked :
  p_rows p <> [] ->
  exists q, Metric "Avg Time to Close" (fmt_2f (Some q) +:+ " hrs") ∈ (section_breakdown p picked).1.
Proof.
  intros Hne. unfold section_breakdown. cbv zeta. rewrite !rbind_emit_fst.
  destruct (selectbox_elem (breakdown_month_options (p_rows p)) picked) as (v & Hv & Hvo).
  { by apply month_options_nonempty. }
  rewrite Hv. pose proof (select_chosen_nonempty _ _ _ Hv Hvo) as Hs.
  destruct (qmean_nonempty (map d_Hours (select_month (p_rows p) (Some v)))) as [q Hq].
  { by intros ?%map_eq_nil. }
  exists q. rewrite Hq. do 3 (apply elem_of_cons; right). apply elem_of_cons. by left.
Qed.

Lemma breakdown_avg_shown_witness :
  exists p, preprocess (fetch_data demo_cols demo_rows) = Ok p /\ p_rows p <> [] /\
  exists q, Metric "Avg Time to Close" (fmt_2f (Some q) +:+ " hrs") ∈ (section_breakdown p None).1.
Proof.
  eexists. split; [vm_compute; reflexivity|]. split; [discriminate|].
  apply breakdown_avg_shown. discriminate.
Defined.

(** With a [Site] column the section raises nothing. *)
Lemma section_breakdown_returns p picked :
  "Site" ∈ p_cols p -> returns (section_breakdown p picked) (fun _ => True).
Proof. intros Hs. unfold section_breakdown, need_col. rewrite bool_decide_true by done. returns_steps. Qed.
