(* ===== verification/BreakdownSpec.v ===== *)
(** * The Monthly Breakdown against the spec's [monthlyBreakdown]

    The spec describes [monthlyBreakdown(records, month)] as a ticket
    count, a mean of the hours and a table of per-site counts.  This file
    states that contract abstractly, with the per-site table a finite map
    from site names ([gmap]), and proves that the result of
    [section_breakdown] (Breakdown.v, lines 44-89) implements it for the
    month its selector yields. *)

From S2P Require Import Prelude Datetime Numeric Frame Preprocess GroupBy Widgets Breakdown.
From stdpp Require Import gmap.

(** ** The contract *)

(** The tickets of month [m]. *)
Definition spec_month_rows (rows : list dispatch) (m : string) : list dispatch :=
  filter (fun d => d_month_year_str d = m) rows.

(** The count of a site in month [m]: present for a site that has a
    ticket in the month, and then the number of its dated tickets. *)
Definition spec_site_count (rows : list dispatch) (m s : string) : option nat :=
  let mr := spec_month_rows rows m in
  if bool_decide (Exists (fun d => d_Site d = Some s) mr)
  then Some (length (filter (fun d => d_Site d = Some s /\ has_date d = true) mr))
  else None.

(** [bd] implements [monthlyBreakdown(rows, m)]. *)
Definition implements_breakdown (rows : list dispatch) (m : string) (bd : breakdown) : Prop :=
  bd_month bd = Some m /\
  bd_total bd = length (spec_month_rows rows m) /\
  bd_avg bd = qmean (map d_Hours (spec_month_rows rows m)) /\
  forall s, (list_to_map (bd_per_site bd) : gmap string nat) !! s = spec_site_count rows m s.

(** ** The aggregated table as a finite map *)

Section TableLookup.
Context {A K B : Type} `{Countable K} (le : relation K) `{!RelDecision le}.
Context (key : A -> option K) (agg : list A -> B).

(** A key of some row maps to the aggregate of its group, any other key
    to nothing. *)
Lemma agg_table_lookup l k :
  (list_to_map (agg_table le key agg l) : gmap K B) !! k
  = if bool_decide (k ∈ group_keys le key l) then Some (agg (group_of key l k)) else None.
Proof.
  assert (Hk : (agg_table le key agg l).*1 = group_keys le key l).
  { rewrite <- (agg_table_keys le key agg l).
    induction (agg_table le key agg l) as [|x t IH]; simpl; [done|]. by f_equal. }
  case_bool_decide as Hin.
  - apply elem_of_list_to_map_1; [rewrite Hk; apply NoDup_group_keys|].
    unfold agg_table, groupby. rewrite map_map. apply elem_of_map_iff. by exists k.
  - apply not_elem_of_list_to_map_1. by rewrite Hk.
Qed.
End TableLookup.

(** ** Section 1 implements the contract *)

Lemma select_month_spec rows m : select_month rows (Some m) = spec_month_rows rows m.
Proof. unfold select_month, spec_month_rows. apply list_filter_iff. naive_solver. Qed.

Lemma tickets_per_site_lookup rows m s :
  (list_to_map (tickets_per_site (spec_month_rows rows m)) : gmap string nat) !! s
  = spec_site_count rows m s.
Proof.
  unfold tickets_per_site, spec_site_count. rewrite agg_table_lookup. cbv zeta.
  rewrite (bool_decide_ext _ (Exists (fun d => d_Site d = Some s) (spec_month_rows rows m)))
    by (rewrite elem_of_group_keys, Exists_exists; naive_solver).
  case_bool_decide; [|done]. f_equal.
  unfold agg_count, group_of. rewrite list_filter_filter. f_equal. apply list_filter_iff. naive_solver.
Qed.

(** C6: refinement: with a [Site] column, the Monthly Breakdown raises
    nothing and its result implements the spec's [monthlyBreakdown] for
    the month the selector yields: the ticket count and the mean of the
    hours of that month, and per-site counts that, read as a finite map,
    give each site with a ticket in the month its number of dated
    tickets. *)
Theorem section_breakdown_refines p picked m :
  "Site" ∈ p_cols p -> selectbox (breakdown_month_options (p_rows p)) 0 picked = Some m ->
  returns (section_breakdown p picked) (implements_breakdown (p_rows p) m).
Proof.
  intros Hs Hm. unfold section_breakdown, need_col. rewrite bool_decide_true by done.
  returns_steps. rewrite Hm, select_month_spec. unfold implements_breakdown. simpl.
  split_and!; [done..|]. apply tickets_per_site_lookup.
Qed.

Lemma section_breakdown_refines_witness :
  exists p, preprocess (fetch_data demo_cols demo_rows) = Ok p /\ ("Site" ∈ p_cols p) /\
  selectbox (breakdown_month_options (p_rows p)) 0 (Some "2024-01") = Some "2024-01" /\
  returns (section_breakdown p (Some "2024-01")) (implements_breakdown (p_rows p) "2024-01").
Proof.
  pose (p := match preprocess (fetch_data demo_cols demo_rows) with Ok p => p | Err _ => mk_pframe [] [] end).
  assert (Hp : preprocess (fetch_data demo_cols demo_rows) = Ok p) by (vm_compute; reflexivity).
  assert (Hs : "Site" ∈ p_cols p) by decide_by_eval.
  assert (Hm : selectbox (breakdown_month_options (p_rows p)) 0 (Some "2024-01") = Some "2024-01")
    by (vm_compute; reflexivity).
  exists p. split_and!; try assumption. exact (section_breakdown_refines p _ _ Hs Hm).
Defined.
