(* ===== verification/Trend.v ===== *)
(** * Section 2: Monthly Trend Analysis (DXC_Analytics.py lines 94-124)

    [groupby(pd.Grouper(key='CheckInDate', freq='ME'))] bins the dated
    tickets by calendar month, one bin per month from the first dated month
    to the last, empty months included; each bin gets the count of dates
    and the mean of [Hours] (NaN for an empty bin), and the label
    [strftime('%m/%y')] of its month end.  Tickets with a NaT date are in no
    bin; when no ticket of a non-empty frame has a date, the grouper's
    edges are NaT and it raises [ValueError].  A month is numbered
    [year * 12 + month - 1]. *)

From S2P Require Import Prelude Datetime Numeric Frame Preprocess GroupBy Widgets.
Open Scope Z_scope.

Definition month_index (t : Z) : Z := year_of_ns t * 12 + (month_of_ns t - 1).

Definition index_year (i : Z) : Z := i / 12.
Definition index_month (i : Z) : Z := i mod 12 + 1.

(** The month of a row's date, if it has one. *)
Definition row_month (d : dispatch) : option Z := month_index <$> d_CheckInDate d.

Definition dated_months (rows : list dispatch) : list Z := omap row_month rows.

Definition month_range (lo hi : Z) : list Z := seqZ lo (hi - lo + 1).

(** The months from the first dated month to the last, none when no row
    has a date. *)
Definition month_span (rows : list dispatch) : list Z :=
  match dated_months rows with
  | [] => []
  | i :: js => month_range (foldr Z.min i js) (foldr Z.max i js)
  end.

(** The message of [date_range] when one of its edges is NaT. *)
Definition nat_edge_msg : string := "Neither `start` nor `end` can be NaT".

(** The bins of the grouper ([TimeGrouper._get_time_bins]): none for an
    empty frame; otherwise the edges are the month ends around the
    column's [min()] and [max()], every month between them is a bin, and
    when no row has a date both are NaT and [date_range] raises. *)
Definition trend_bins (rows : list dispatch) : result (list Z) :=
  match rows, dated_months rows with
  | [], _ => Ok []
  | _ :: _, [] => Err (ValueError nat_edge_msg)
  | _ :: _, _ :: _ => Ok (month_span rows)
  end.

Definition bin_rows (rows : list dispatch) (i : Z) : list dispatch :=
  filter (fun d => row_month d = Some i) rows.

Record trend_row := mk_trend_row {
  tr_month : Z;
  tr_label : string;
  tr_total : nat;
  tr_avg : option Q }.

(** One row of [monthly_data]: the bin's month end, its [month_label]
    ([strftime('%m/%y')], line 102), the ['count'] of its dates and the
    ['mean'] of its hours. *)
Definition trend_row_of (rows : list dispatch) (i : Z) : trend_row :=
  mk_trend_row i (month_label (index_year i) (index_month i))
    (agg_count has_date (bin_rows rows i)) (agg_mean d_Hours (bin_rows rows i)).

(** [monthly_data] with its [month_label] column (lines 96-102). *)
Definition monthly_data (rows : list dispatch) : result (list trend_row) :=
  bins <- trend_bins rows ;;
  Ok (map (trend_row_of rows) bins).

Definition trend_chart_rows (t : list trend_row) : list (string * nat * option Q) :=
  map (fun r => (tr_label r, tr_total r, tr_avg r)) t.

Definition section_trend (p : pframe) : render (list trend_row) :=
  emit (Expander "### **Monthly Trend Analysis**") ~;;
  md <~ rlift (monthly_data (p_rows p)) ;;
  emit (Chart (TrendLines (trend_chart_rows md))) ~;;
  rret md.

(** Example data: November 2023, February 2024, and a ticket with no
    date. *)
Definition demo_trend_frame : frame :=
  fetch_data ["CheckInDate"; "Hours"; "Site"]
    [mk_row (JStr "2023-11-05") (JNum 2) (Some "A") None None;
     mk_row (JStr "2024-02-20") (JNum 1) (Some "A") None None;
     mk_row JNull (JNum 4) (Some "B") None None].

(** ** Properties *)

Lemma foldr_min_max_bounds i js x :
  x ∈ i :: js -> foldr Z.min i js <= x <= foldr Z.max i js.
Proof.
  induction js as [|j js IH]; simpl; intros Hx.
  - apply list_elem_of_singleton in Hx. lia.
  - assert (x = j \/ x ∈ i :: js) as [->|H] by set_solver; [lia|].
    specialize (IH H). lia.
Qed.

Lemma foldr_min_in i js : foldr Z.min i js ∈ i :: js.
Proof.
  induction js as [|j js IH]; simpl; [set_solver|].
  destruct (Z.min_spec j (foldr Z.min i js)) as [[_ ->]|[_ ->]]; set_solver.
Qed.

Lemma foldr_max_in i js : foldr Z.max i js ∈ i :: js.
Proof.
  induction js as [|j js IH]; simpl; [set_solver|].
  destruct (Z.max_spec j (foldr Z.max i js)) as [[_ ->]|[_ ->]]; set_solver.
Qed.

Lemma elem_of_dated_months rows i :
  i ∈ dated_months rows <-> exists d, d ∈ rows /\ row_month d = Some i.
Proof. apply list_elem_of_omap. Qed.

(** No month is dated exactly when no row has a date. *)
Lemma dated_months_nil rows :
  dated_months rows = [] <-> forall d, d ∈ rows -> has_date d = false.
Proof.
  unfold dated_months, has_date, row_month. induction rows as [|d rows IH]; simpl.
  - split; [set_solver|done].
  - destruct (d_CheckInDate d) eqn:E; simpl.
    + split; [done|]. intros H. specialize (H d ltac:(set_solver)). by rewrite E in H.
    + rewrite IH. split; intros H d' Hd'; [apply elem_of_cons in Hd' as [->|]; [by rewrite E|auto]|].
      apply H. set_solver.
Qed.

Lemma dated_months_cons rows :
  (exists d, d ∈ rows /\ has_date d = true) -> dated_months rows <> [].
Proof. intros (d & Hd & Ht) E. by rewrite (proj1 (dated_months_nil rows) E d Hd) in Ht. Qed.

(** With a dated row the table is one row per month of [month_span]. *)
Lemma monthly_data_dated rows :
  dated_months rows <> [] -> monthly_data rows = Ok (map (trend_row_of rows) (month_span rows)).
Proof.
  unfold monthly_data, trend_bins. intros Hne.
  destruct rows as [|d rows]; [done|]. by destruct (dated_months (d :: rows)).
Qed.

(** Without one, a non-empty frame raises at line 96. *)
Lemma monthly_data_undated rows :
  rows <> [] -> dated_months rows = [] -> monthly_data rows = Err (ValueError nat_edge_msg).
Proof. unfold monthly_data, trend_bins. intros Hne E. destruct rows as [|d rows]; [done|]. by rewrite E. Qed.

Lemma monthly_data_Ok rows t :
  monthly_data rows = Ok t -> t = map (trend_row_of rows) (month_span rows).
Proof.
  unfold monthly_data, trend_bins. destruct rows as [|d rows]; [by intros [= <-]|].
  destruct (dated_months (d :: rows)) eqn:E; [discriminate|]. by intros [= <-].
Qed.

Lemma map_tr_month rows l : map tr_month (map (trend_row_of rows) l) = l.
Proof. rewrite map_map. apply map_id. Qed.

(** The months of the span are exactly those between two dated months. *)
Lemma elem_of_month_span rows k :
  k ∈ month_span rows <->
  exists i j, i ∈ dated_months rows /\ j ∈ dated_months rows /\ i <= k <= j.
Proof.
  unfold month_span. destruct (dated_months rows) as [|i js].
  - split; [set_solver|]. intros (? & ? & ? & _). set_solver.
  - unfold month_range. rewrite elem_of_seqZ. split.
    + intros Hk. exists (foldr Z.min i js), (foldr Z.max i js).
      split; [apply foldr_min_in|]. split; [apply foldr_max_in|lia].
    + intros (a & b & Ha & Hb & Hk).
      pose proof (foldr_min_max_bounds i js a Ha). pose proof (foldr_min_max_bounds i js b Hb). lia.
Qed.

Lemma month_span_dated rows k : k ∈ month_span rows -> dated_months rows <> [].
Proof. intros (i & _ & Hi & _)%elem_of_month_span E. rewrite E in Hi. set_solver. Qed.

Lemma seqZ_sorted m n : StronglySorted Z.lt (seqZ m n).
Proof.
  remember (Z.to_nat n) as k eqn:Hk. revert m n Hk. induction k as [|k IH]; intros m n Hk.
  - rewrite seqZ_nil by lia. constructor.
  - rewrite seqZ_cons by lia. constructor; [apply IH; lia|].
    apply Forall_forall. intros x Hx%elem_of_seqZ. lia.
Qed.

Lemma month_span_sorted rows : StronglySorted Z.lt (month_span rows).
Proof. unfold month_span. destruct (dated_months rows); [constructor|apply seqZ_sorted]. Qed.

Lemma NoDup_month_span rows : NoDup (month_span rows).
Proof. unfold month_span. destruct (dated_months rows); [constructor|apply NoDup_seqZ]. Qed.

Lemma dated_month_in_span rows d i :
  d ∈ rows -> row_month d = Some i -> i ∈ month_span rows.
Proof.
  intros Hd Hi. apply elem_of_month_span. exists i, i.
  assert (i ∈ dated_months rows) by (apply elem_of_dated_months; eauto). split_and!; done || lia.
Qed.

(** C23: the months of the trend table are, in increasing order and each
    once, exactly the months from the earliest dated ticket's to the
    latest one's. *)
Theorem trend_months_exact rows t :
  monthly_data rows = Ok t ->
  StronglySorted Z.lt (map tr_month t) /\
  forall k, k ∈ map tr_month t <->
    exists i j, i ∈ dated_months rows /\ j ∈ dated_months rows /\ i <= k <= j.
Proof.
  intros ->%monthly_data_Ok. rewrite map_tr_month.
  split; [apply month_span_sorted|apply elem_of_month_span].
Qed.

(** C14: when some ticket has a date, the trend table exists and every
    dated ticket is counted in exactly one of its months, so the monthly
    totals add up to the number of tickets with a date. *)
Theorem trend_total_sum rows :
  (exists d, d ∈ rows /\ has_date d = true) ->
  exists t, monthly_data rows = Ok t /\
    sum_list_with tr_total t = length (filter (fun d => has_date d = true) rows).
Proof.
  intros Hd. rewrite monthly_data_dated by (by apply dated_months_cons).
  eexists; split; [reflexivity|]. rewrite sum_list_with_map.
  change (fun i => tr_total (trend_row_of rows i)) with (fun i => agg_count has_date (group_of row_month rows i)).
  rewrite sum_counts_keys. unfold agg_count.
  rewrite (concat_groups_perm row_month) by apply NoDup_month_span.
  rewrite list_filter_filter. f_equal. apply filter_ext_in. intros d Hd'.
  unfold key_in, has_date, row_month. destruct (d_CheckInDate d) as [t|] eqn:E; simpl.
  - split; [tauto|]. intros _. split; [done|]. apply (dated_month_in_span rows d); [done|].
    unfold row_month. by rewrite E.
  - naive_solver.
Qed.

(** C16: a month between two dated months with no ticket of its own still
    has a row in the trend table, with 0 tickets and a NaN average (the
    spec has one row per month present in the data). *)
Theorem trend_gap_month rows i j k :
  i ∈ dated_months rows -> j ∈ dated_months rows -> i <= k <= j ->
  (forall d, d ∈ rows -> row_month d <> Some k) ->
  exists t, monthly_data rows = Ok t /\
    mk_trend_row k (month_label (index_year k) (index_month k)) 0 None ∈ t.
Proof.
  intros Hi Hj Hk Hnone. rewrite monthly_data_dated by (intros E; rewrite E in Hi; set_solver).
  eexists; split; [reflexivity|]. apply elem_of_map_iff. exists k.
  unfold trend_row_of. assert (bin_rows rows k = []) as -> by (apply filter_nil_in; exact Hnone).
  split; [reflexivity|]. apply elem_of_month_span. eauto.
Qed.

Lemma label_Dec_Jan_le y y' : String.le (month_label y' 1) (month_label y 12).
Proof. unfold month_label. simpl. unfold String.le, String.leb. simpl. done. Qed.

Lemma label_Dec_Jan_ne y y' : month_label y' 1 <> month_label y 12.
Proof. unfold month_label. simpl. intros E. discriminate E. Qed.

Lemma label_in_axis rows i :
  i ∈ month_span rows ->
  month_label (index_year i) (index_month i)
    ∈ map (fun r => r.1.1) (trend_chart_rows (map (trend_row_of rows) (month_span rows))).
Proof.
  intros Hi. unfold trend_chart_rows. rewrite !map_map. apply elem_of_map_iff. by exists i.
Qed.

(** C15: across a year boundary the trend chart's x axis is not in
    chronological order: its labels ["%m/%y"] are sorted as text, so
    January of the next year is drawn before December. *)
Theorem trend_axis_year_wrap rows i :
  i ∈ month_span rows -> i + 1 ∈ month_span rows -> index_month i = 12 ->
  exists t, monthly_data rows = Ok t /\
  exists l1 l2 l3, trend_x_axis (trend_chart_rows t)
    = l1 ++ month_label (index_year (i + 1)) 1 :: l2 ++ month_label (index_year i) 12 :: l3.
Proof.
  intros Hi Hi1 Hm. rewrite monthly_data_dated by (eapply month_span_dated, Hi).
  eexists; split; [reflexivity|]. unfold trend_x_axis. apply py_sorted_order.
  - replace 1 with (index_month (i + 1)) at 2 by (unfold index_month in *; rewrite Z.add_mod by lia; rewrite (Z.mod_small 1) by lia; Z.to_euclidean_division_equations; lia).
    by apply label_in_axis.
  - rewrite <- Hm. by apply label_in_axis.
  - apply label_Dec_Jan_ne.
  - apply label_Dec_Jan_le.
Qed.

(** The trend section raises nothing when some ticket has a date. *)
Lemma section_trend_returns p :
  (exists d, d ∈ p_rows p /\ has_date d = true) -> returns (section_trend p) (fun _ => True).
Proof.
  intros Hd. unfold section_trend. rewrite monthly_data_dated by (by apply dated_months_cons).
  returns_steps.
Qed.

(** On a non-empty frame without any date, the section opens its
    expander and raises [ValueError] at line 96. *)
Lemma section_trend_undated p :
  p_rows p <> [] -> (forall d, d ∈ p_rows p -> has_date d = false) ->
  section_trend p = ([Expander "### **Monthly Trend Analysis**"], Err (ValueError nat_edge_msg)).
Proof.
  intros Hne Hd. unfold section_trend.
  rewrite monthly_data_undated by (done || by apply dated_months_nil). reflexivity.
Qed.

(** ** Examples *)

Lemma trend_months_exact_witness :
  exists t, monthly_data (rows_of demo_trend_frame) = Ok t /\
  StronglySorted Z.lt (map tr_month t) /\
  forall k, k ∈ map tr_month t <->
    exists i j, i ∈ dated_months (rows_of demo_trend_frame) /\
                j ∈ dated_months (rows_of demo_trend_frame) /\ i <= k <= j.
Proof.
  eexists. split; [vm_compute; reflexivity|].
  apply trend_months_exact. vm_compute. reflexivity.
Defined.

Lemma trend_total_sum_witness :
  (exists d, d ∈ rows_of demo_trend_frame /\ has_date d = true) /\
  exists t, monthly_data (rows_of demo_trend_frame) = Ok t /\
    sum_list_with tr_total t = length (filter (fun d => has_date d = true) (rows_of demo_trend_frame)).
Proof.
  assert (Hd : exists d, d ∈ rows_of demo_trend_frame /\ has_date d = true).
  { exists (default (mk_dispatch None 0 "" None None None) (head (rows_of demo_trend_frame))).
    split; [|vm_compute; reflexivity]. apply list_elem_of_In. vm_compute. auto. }
  split; [exact Hd|]. exact (trend_total_sum _ Hd).
Defined.

Lemma trend_gap_month_witness :
  24286 ∈ dated_months (rows_of demo_trend_frame) /\ 24289 ∈ dated_months (rows_of demo_trend_frame) /\
  (forall d, d ∈ rows_of demo_trend_frame -> row_month d <> Some 24287) /\
  exists t, monthly_data (rows_of demo_trend_frame) = Ok t /\
    mk_trend_row 24287 (month_label (index_year 24287) (index_month 24287)) 0 None ∈ t.
Proof.
  assert (Hi : 24286 ∈ dated_months (rows_of demo_trend_frame)) by decide_by_eval.
  assert (Hj : 24289 ∈ dated_months (rows_of demo_trend_frame)) by decide_by_eval.
  assert (Hn : forall d, d ∈ rows_of demo_trend_frame -> row_month d <> Some 24287).
  { intros d Hd. apply list_elem_of_In in Hd. vm_compute in Hd.
    destruct Hd as [<-|[<-|[<-|[]]]]; vm_compute; discriminate. }
  split; [exact Hi|]. split; [exact Hj|]. split; [exact Hn|].
  apply (trend_gap_month _ 24286 24289); [exact Hi|exact Hj|lia|exact Hn].
Defined.

Lemma trend_axis_year_wrap_witness :
  24287 ∈ month_span (rows_of demo_trend_frame) /\ 24287 + 1 ∈ month_span (rows_of demo_trend_frame) /\
  index_month 24287 = 12 /\
  exists t, monthly_data (rows_of demo_trend_frame) = Ok t /\
  exists l1 l2 l3, trend_x_axis (trend_chart_rows t)
    = l1 ++ month_label (index_year (24287 + 1)) 1 :: l2 ++ month_label (index_year 24287) 12 :: l3.
Proof.
  assert (Hi : 24287 ∈ month_span (rows_of demo_trend_frame)) by decide_by_eval.
  assert (Hi1 : 24287 + 1 ∈ month_span (rows_of demo_trend_frame)) by decide_by_eval.
  split; [exact Hi|]. split; [exact Hi1|]. split; [reflexivity|].
  apply trend_axis_year_wrap; [exact Hi|exact Hi1|reflexivity].
Defined.
