(* ===== verification/SiteAverage.v ===== *)
(** * Section 3: Average Ticket Count per Site & Month (lines 129-178)

    Two charts.  "Per Site" is an average of sums: the tickets of each
    (site, month) pair are counted ([groupby(['Site', 'month_year_str'])]
    counting [CheckInDate]), then the counts of a site are averaged
    ([groupby('Site')], mean of [count]).  "Per Month" counts the tickets
    of each [month_year_str]. *)

From S2P Require Import Prelude Datetime Numeric Frame Preprocess GroupBy Widgets.

(** The order pandas sorts a two-column key by: lexicographic. *)
Definition pair_le (a b : string * string) : Prop :=
  (String.le a.1 b.1 /\ a.1 <> b.1) \/ (a.1 = b.1 /\ String.le a.2 b.2).

#[export] Instance pair_le_dec : RelDecision pair_le.
Proof. intros a b. unfold pair_le. apply _. Defined.

(** The key of [groupby(['Site', 'month_year_str'])]: null when the site
    is null. *)
Definition site_month_key (d : dispatch) : option (string * string) :=
  match d_Site d with Some s => Some (s, d_month_year_str d) | None => None end.

(** Lines 137-139. *)
Definition tickets_per_site_per_month (rows : list dispatch) : list ((string * string) * nat) :=
  agg_table pair_le site_month_key (agg_count has_date) rows.

Definition count_q (e : (string * string) * nat) : Q := inject_Z (Z.of_nat e.2).

(** Lines 142-144: the mean of the [count] column per site. *)
Definition avg_tickets_by_site (t : list ((string * string) * nat)) : list (string * option Q) :=
  agg_table String.le (fun e => Some e.1.1) (fun g => qmean (map count_q g)) t.

(** Lines 163-165. *)
Definition tickets_by_month (rows : list dispatch) : list (string * nat) :=
  agg_table String.le (fun d => Some (d_month_year_str d)) (agg_count has_date) rows.

Definition section_site_average (p : pframe) : render (list (string * option Q) * list (string * nat)) :=
  emit (Expander "### **Average Ticket Count per Site & Month**") ~;;
  emit (Subheader "Per Site") ~;;
  rlift (need_col p "Site") ~;;
  let avg := avg_tickets_by_site (tickets_per_site_per_month (p_rows p)) in
  emit (Chart (BarAvg "Avg. Ticket Count per Site (Monthly)" avg)) ~;;
  emit (Subheader "Per Month") ~;;
  let tbm := tickets_by_month (p_rows p) in
  emit (Chart (LineCount "Ticket Count per Month" tbm)) ~;;
  rret (avg, tbm).

(** The months in which a site has tickets, "NaT" included. *)
Definition site_months (rows : list dispatch) (s : string) : list string :=
  remove_dups (map d_month_year_str (filter (fun d => d_Site d = Some s) rows)).

(** Example data: site A has two tickets in January and one in February,
    site B one in February and one without a date. *)
Definition demo_site_frame : frame :=
  fetch_data ["CheckInDate"; "Hours"; "Site"]
    [mk_row (JStr "2024-01-05") (JNum 2) (Some "A") None None;
     mk_row (JStr "2024-01-06") (JNum 2) (Some "A") None None;
     mk_row (JStr "2024-02-20") (JNum 1) (Some "A") None None;
     mk_row (JStr "2024-02-20") (JNum 1) (Some "B") None None;
     mk_row JNull (JNum 4) (Some "B") None None].

(** ** The average of sums *)

Section TwoStage.
Context (rows : list dispatch) (s : string).

(** The (site, month) keys of site [s]. *)
Definition site_keys : list (string * string) :=
  filter (fun k => k.1 = s) (group_keys pair_le site_month_key rows).

Definition pair_count (k : string * string) : nat :=
  agg_count has_date (group_of site_month_key rows k).

Lemma site_group_of :
  group_of (fun e : (string * string) * nat => Some e.1.1) (tickets_per_site_per_month rows) s
  = map (fun k => (k, pair_count k)) site_keys.
Proof.
  unfold group_of, tickets_per_site_per_month, agg_table, groupby, site_keys.
  rewrite map_map. simpl. rewrite filter_map_comm. simpl.
  f_equal. apply list_filter_iff. intros k. split; [by intros [=]|by intros ->].
Qed.

Lemma NoDup_site_keys : NoDup site_keys.
Proof. unfold site_keys. apply NoDup_filter, NoDup_group_keys. Qed.

Lemma elem_of_site_keys k :
  k ∈ site_keys <-> k.1 = s /\ exists d, d ∈ rows /\ site_month_key d = Some k.
Proof. unfold site_keys. rewrite list_elem_of_filter, elem_of_group_keys. done. Qed.

Lemma key_in_site_keys d :
  d ∈ rows -> key_in site_month_key site_keys d <-> d_Site d = Some s.
Proof.
  intros Hd. unfold key_in, site_month_key. destruct (d_Site d) as [s'|] eqn:E; [|naive_solver].
  rewrite elem_of_site_keys. simpl. split; [intros [-> _]; done|intros [= ->]].
  split; [done|]. exists d. unfold site_month_key. by rewrite E.
Qed.

(** The counts of site [s] add up to its dated tickets. *)
Lemma site_counts_total :
  sum_list_with pair_count site_keys
  = length (filter (fun d => has_date d = true /\ d_Site d = Some s) rows).
Proof.
  unfold pair_count. rewrite sum_counts_keys. unfold agg_count.
  rewrite (concat_groups_perm site_month_key) by apply NoDup_site_keys.
  rewrite list_filter_filter. f_equal. apply filter_ext_in. intros d Hd.
  rewrite key_in_site_keys by done. done.
Qed.

(** There are as many (site, month) keys of [s] as months of [s]. *)
Lemma site_keys_length : length site_keys = length (site_months rows s).
Proof.
  rewrite <- (length_map snd site_keys). apply Permutation_length, NoDup_Permutation.
  - apply NoDup_fmap_2_strong; [|apply NoDup_site_keys].
    intros [a m] [b m'] Ha%elem_of_site_keys Hb%elem_of_site_keys. simpl in *. naive_solver.
  - apply NoDup_remove_dups.
  - intros m. unfold site_months. rewrite elem_of_map_iff, elem_of_remove_dups, elem_of_map_iff.
    split.
    + intros ([a m'] & -> & (Ha & d & Hd & Hk)%elem_of_site_keys). simpl in *. subst a.
      exists d. unfold site_month_key in Hk. destruct (d_Site d) eqn:E; [|done]. injection Hk as -> ->.
      split; [done|]. apply list_elem_of_filter. done.
    + intros (d & -> & (Hs & Hd)%list_elem_of_filter). exists (s, d_month_year_str d). split; [done|].
      apply elem_of_site_keys. split; [done|]. exists d. unfold site_month_key. by rewrite Hs.
Qed.
End TwoStage.

(** C2: the "Avg. Ticket Count per Site (Monthly)" bar of a site is the
    number of its dated tickets divided by the number of months in which it
    has tickets: an average of per-month counts, not a per-ticket mean
    (spec, testable property 3).  A "NaT" month of the site counts in the
    divisor but contributes no ticket. *)
Theorem avg_tickets_two_stage rows s a :
  (s, Some a) ∈ avg_tickets_by_site (tickets_per_site_per_month rows) ->
  (a == inject_Z (Z.of_nat (length (filter (fun d => has_date d = true /\ d_Site d = Some s) rows)))
        / inject_Z (Z.of_nat (length (site_months rows s))))%Q.
Proof.
  unfold avg_tickets_by_site at 1, agg_table, groupby. rewrite map_map, elem_of_map_iff.
  intros (s' & [= <- Ha] & Hs).
  pose proof (group_nonempty String.le (fun e : (string * string) * nat => Some e.1.1) _ _ Hs) as Hne.
  rewrite site_group_of in Ha, Hne. rewrite map_map in Ha.
  rewrite qmean_cons_value in Ha by (intros ?%map_eq_nil; subst; apply Hne; rewrite H; done).
  injection Ha as ->. unfold count_q. simpl.
  rewrite qsum_inject, site_counts_total, length_map, site_keys_length. reflexivity.
Qed.

(** ** The "Per Month" chart *)

Lemma tickets_by_month_eq rows :
  tickets_by_month rows
  = map (fun k => (k, agg_count has_date (group_of (fun d => Some (d_month_year_str d)) rows k)))
        (group_keys String.le (fun d => Some (d_month_year_str d)) rows).
Proof. unfold tickets_by_month, agg_table, groupby. by rewrite map_map. Qed.

(** C18: when some ticket has no check-in date, the "Ticket Count per
    Month" line ends with a point "NaT" at 0 tickets. *)
Theorem tickets_by_month_NaT_last f p :
  preprocess f = Ok p -> (exists d, d ∈ p_rows p /\ d_CheckInDate d = None) ->
  last (tickets_by_month (p_rows p)) = Some ("NaT", 0%nat).
Proof.
  intros Hp (d0 & Hd0 & Hnat). rewrite tickets_by_month_eq, last_map.
  rewrite (sorted_last_max _ "NaT"); [|apply group_keys_sorted; apply _|..].
  - simpl. do 2 f_equal. unfold agg_count. rewrite filter_nil_in; [done|].
    intros d Hd. pose proof (group_of_key _ _ _ _ Hd) as Hkd. injection Hkd as Hkd.
    apply group_of_subset in Hd. apply (pre_month_NaT f p d Hp Hd) in Hkd. by rewrite Hkd.
  - apply elem_of_group_keys. exists d0. split; [done|]. f_equal.
    apply (pre_month_NaT f p d0 Hp Hd0). unfold has_date. by rewrite Hnat.
  - intros y (d & Hd & [= <-])%elem_of_group_keys. by apply (pre_month_le_NaT f p).
Qed.

Lemma avg_tickets_two_stage_witness :
  ("B", Some (1 # 2)%Q) ∈ avg_tickets_by_site (tickets_per_site_per_month (rows_of demo_site_frame)) /\
  ((1 # 2) == inject_Z (Z.of_nat (length (filter (fun d => has_date d = true /\ d_Site d = Some "B")
                                             (rows_of demo_site_frame))))
             / inject_Z (Z.of_nat (length (site_months (rows_of demo_site_frame) "B"))))%Q.
Proof.
  assert (H : ("B", Some (1 # 2)%Q) ∈ avg_tickets_by_site (tickets_per_site_per_month (rows_of demo_site_frame))).
  { apply list_elem_of_In. vm_compute. auto. }
  split; [exact H|]. exact (avg_tickets_two_stage _ _ _ H).
Defined.

Lemma tickets_by_month_NaT_last_witness :
  exists p, preprocess demo_site_frame = Ok p /\
  (exists d, d ∈ p_rows p /\ d_CheckInDate d = None) /\
  last (tickets_by_month (p_rows p)) = Some ("NaT", 0%nat).
Proof.
  eexists. split; [vm_compute; reflexivity|].
  assert (Hex : exists d, d ∈ rows_of demo_site_frame /\ d_CheckInDate d = None).
  { exists (mk_dispatch None 4 "NaT" (Some "B") None None). split; [|reflexivity].
    apply list_elem_of_In. vm_compute. auto 10. }
  split; [exact Hex|]. apply (tickets_by_month_NaT_last demo_site_frame); [vm_compute; reflexivity|exact Hex].
Defined.

Lemma section_site_average_returns p :
  "Site" ∈ p_cols p -> returns (section_site_average p) (fun _ => True).
Proof. intros Hs. unfold section_site_average, need_col. rewrite bool_decide_true by done. returns_steps. Qed.
