(* ===== verification/Subtype.v ===== *)
(** * Section 4: Subtype & Site Breakdown (DXC_Analytics.py lines 183-283)

    The rows with both a [Subtype] and an [Item] ([dropna]); a month
    selector with ['All Tickets'] first; a pie of the tickets of each
    subtype in that month; a subtype selector whose initial index comes
    from a chart selection read in the session state; and, for a chosen
    subtype, a bar chart of its tickets per site, or an info message. *)

From S2P Require Import Prelude Datetime Numeric Frame Preprocess GroupBy Widgets Breakdown.

(** [dropna(subset=['Subtype', 'Item'])] (line 187). *)
Definition has_subtype_item (d : dispatch) : bool :=
  bool_decide (is_Some (d_Subtype d) /\ is_Some (d_Item d)).

Definition filtered_tickets (rows : list dispatch) : list dispatch :=
  filter (fun d => has_subtype_item d = true) rows.

(** [repr] of a list of column names, the message of pandas' [KeyError]. *)
Definition show_keys (ks : list string) : string :=
  "[" +:+ foldr (fun k acc => (if bool_decide (acc = "") then "" else acc +:+ ", ") +:+ "'" +:+ k +:+ "'") "" (rev ks) +:+ "]".

(** [dropna(subset=ks)] raises [KeyError] naming every missing column. *)
Definition need_cols (p : pframe) (ks : list string) : result unit :=
  match filter (fun k => k ∉ p_cols p) ks with
  | [] => Ok tt
  | missing => Err (KeyError (show_keys missing))
  end.

(** Line 190. *)
Definition pie_month_options (ft : list dispatch) : list string :=
  "All Tickets" :: py_sorted (remove_dups (map d_month_year_str ft)).

(** Lines 194-197. *)
Definition month_filter (ft : list dispatch) (m : option string) : list dispatch :=
  if bool_decide (m <> Some "All Tickets") then select_month ft m else ft.

(** Lines 201-203: tickets (dated) per subtype. *)
Definition subtype_counts (mfd : list dispatch) : list (string * nat) :=
  agg_table String.le d_Subtype (agg_count has_date) mfd.

(** Line 236. *)
Definition subtype_options (t : list (string * nat)) : list string :=
  "All Subtypes" :: py_sorted (remove_dups (map fst t)).

(** Lines 239-241: a non-empty chart selection that is an option. *)
Definition initial_index (c : option string) (opts : list string) : nat :=
  match c with
  | Some v => if bool_decide (v <> "" /\ v ∈ opts) then default 0%nat (index_of v opts) else 0%nat
  | None => 0%nat
  end.

(** Lines 256-262. *)
Definition site_breakdown (fbs : list dispatch) : list (string * nat) :=
  agg_table String.le d_Site (agg_count has_date) fbs.

Definition no_site_msg : string := "No site data found for this subtype.".

Definition pick_subtype_msg : string :=
  "Select a subtype from the dropdown or the pie chart to view the Site Breakdown.".

(** The right column (lines 254-283). *)
Definition site_panel (p : pframe) (mfd : list dispatch) (m s : option string) : render unit :=
  if bool_decide (s <> Some "All Subtypes") then
    match filter (fun d => d_Subtype d = s) mfd with
    | [] => emit (Info no_site_msg)
    | fbs =>
        rlift (need_col p "Site") ~;;
        let sb := site_breakdown fbs in
        emit (Markdown ("#### Site Breakdown for " +:+ dq +:+ show_opt s +:+ dq +:+ " (" +:+ show_opt m +:+ ")")) ~;;
        emit (Chart (BarCount ("Site Breakdown for " +:+ dq +:+ show_opt s +:+ dq) true sb))
    end
  else emit (Info pick_subtype_msg).

(** The whole section; it yields the value of the keyed subtype selector,
    which the session state keeps. *)
Definition section_subtype (p : pframe) (ss : session) (pick_month : option string) : render (option string) :=
  emit (Expander "### **Subtype & Site Breakdown**") ~;;
  rlift (need_cols p ["Subtype"; "Item"]) ~;;
  let ft := filtered_tickets (p_rows p) in
  let mopts := pie_month_options ft in
  let m := selectbox mopts 0 pick_month in
  emit (Selectbox "Select a Month for Breakdown" mopts m) ~;;
  let mfd := month_filter ft m in
  let t := subtype_counts mfd in
  emit (Chart (Pie ("Ticket Breakdown by Subtype for " +:+ show_opt m) t)) ~;;
  c <~ rlift (chart_selection ss) ;;
  let sopts := subtype_options t in
  let s := selectbox sopts (initial_index c sopts) (ss_subtype_box ss) in
  emit (Selectbox "Select a Subtype to view Site Breakdown:" sopts s) ~;;
  site_panel p mfd m s ~;;
  rret s.

(** ** Properties *)

Lemma initial_index_lt c opts : opts <> [] -> (initial_index c opts < length opts)%nat.
Proof.
  intros Hne. assert (0 < length opts)%nat by (destruct opts; [done|simpl; lia]).
  unfold initial_index. destruct c as [v|]; [case_bool_decide|]; [|lia|lia].
  destruct (index_of v opts) eqn:E; simpl; [eauto using index_of_lt|lia].
Qed.

(** The subtype selector always yields one of its options. *)
Lemma subtype_choice c t picked :
  exists v, selectbox (subtype_options t) (initial_index c (subtype_options t)) picked = Some v /\
            v ∈ subtype_options t.
Proof. apply selectbox_elem_at, initial_index_lt. discriminate. Qed.

(** A subtype offered by the selector has tickets in the filtered rows. *)
Lemma subtype_option_has_rows mfd v :
  v ∈ subtype_options (subtype_counts mfd) -> v <> "All Subtypes" ->
  filter (fun d => d_Subtype d = Some v) mfd <> [].
Proof.
  intros Hv Hne. apply elem_of_cons in Hv as [->|Hv]; [done|].
  unfold py_sorted in Hv. rewrite (merge_sort_Permutation String.le), elem_of_remove_dups in Hv.
  unfold subtype_counts in Hv. rewrite agg_table_keys, elem_of_group_keys in Hv.
  destruct Hv as (d & Hd & Hk). intros E.
  assert (d ∈ filter (fun d => d_Subtype d = Some v) mfd) as H by (by apply list_elem_of_filter).
  rewrite E in H. set_solver.
Qed.

Lemma site_panel_no_msg p mfd m v :
  (v <> "All Subtypes" -> filter (fun d => d_Subtype d = Some v) mfd <> []) ->
  Info no_site_msg ∉ (site_panel p mfd m (Some v)).1.
Proof.
  intros Hne Hx. unfold site_panel in Hx. case_bool_decide as Hv.
  - destruct (filter _ mfd) as [|d fbs] eqn:E; [apply Hne; congruence|].
    emitted_cases Hx.
  - simpl in Hx. apply list_elem_of_singleton in Hx. discriminate.
Qed.

Lemma site_panel_choice_no_msg p mfd m c picked :
  Info no_site_msg ∉ (site_panel p mfd m (selectbox (subtype_options (subtype_counts mfd))
                                   (initial_index c (subtype_options (subtype_counts mfd))) picked)).1.
Proof.
  destruct (subtype_choice c (subtype_counts mfd) picked) as (v & -> & Hv).
  apply site_panel_no_msg. intros. by apply subtype_option_has_rows.
Qed.

(** C4: the message "No site data found for this subtype." is never
    shown: a subtype the selector offers always has tickets in the chosen
    month, so the filtered rows are never empty; a subtype whose tickets
    have no site gets an empty bar chart instead (the spec asks for the
    "no data" signal on an empty site breakdown). *)
Theorem no_site_msg_unreachable p ss pick :
  Info no_site_msg ∉ (section_subtype p ss pick).1.
Proof.
  intros Hx. unfold section_subtype in Hx. cbv zeta in Hx. emitted_cases Hx.
  by eapply site_panel_choice_no_msg.
Qed.

(** C13: the pie counts exclude the tickets without a subtype or an item
    (and, as ['count'] of [CheckInDate], those without a date): the slices
    add up to the dated tickets with both labels in the chosen month, or in
    all months for ['All Tickets'] (spec, testable property 6). *)
Theorem subtype_counts_sum rows m :
  sum_list_with snd (subtype_counts (month_filter (filtered_tickets rows) m))
  = length (filter (fun d => has_date d = true /\ is_Some (d_Subtype d) /\ is_Some (d_Item d) /\
                             (m = Some "All Tickets" \/ Some (d_month_year_str d) = m)) rows).
Proof.
  unfold subtype_counts. rewrite agg_count_sum. unfold agg_count, keyed, month_filter, filtered_tickets.
  case_bool_decide; [unfold select_month|]; rewrite !list_filter_filter; f_equal;
    apply list_filter_iff; intros d; unfold has_subtype_item; rewrite bool_decide_eq_true; naive_solver.
Qed.

Lemma site_panel_returns p mfd m s (P : unit -> Prop) :
  "Site" ∈ p_cols p -> P tt -> returns (site_panel p mfd m s) P.
Proof.
  intros Hs HP. unfold site_panel, need_col. rewrite (bool_decide_true ("Site" ∈ p_cols p)) by done.
  case_bool_decide; [destruct (filter _ mfd)|]; returns_steps.
Qed.

(** With the three label columns, and a chart selection that can be read,
    the section raises nothing. *)
Lemma section_subtype_returns p ss pick c :
  "Site" ∈ p_cols p -> "Subtype" ∈ p_cols p -> "Item" ∈ p_cols p ->
  chart_selection ss = Ok c -> returns (section_subtype p ss pick) (fun _ => True).
Proof.
  intros Hs Hst Hi Hc. unfold section_subtype, need_cols.
  rewrite !filter_cons_False by naive_solver. rewrite filter_nil, Hc.
  returns_steps. apply site_panel_returns; [done|]. returns_steps.
Qed.
