(* ===== verification/Dashboard.v ===== *)
(** * The script as a whole, and the session across reruns
    (DXC_Analytics.py lines 16-44, 91, 124, 178-180, 284-286)

    One run of the script: create ['selection'] in the session state, the
    title, the fetch, then either the warning for an empty table or the
    pre-processing and the four sections separated by rules.  An exception
    stops the run where it is raised; what was drawn stays.  Streamlit
    reruns the script on every widget change; the session state outlives a
    run, and the value of the keyed subtype selector is kept when the run
    created that widget and dropped when it did not.  The theorems cover
    the empty table, the order of an error, the crash of a table without
    any date, the session invariant, a run without exception, and a pick
    kept across a rerun. *)

From S2P Require Import Prelude Datetime Numeric Frame Preprocess GroupBy Widgets.
From S2P Require Import Breakdown Trend SiteAverage Subtype.

(** What a run reads from outside the session state: the table
    ([live_dispatches] with its columns and rows) and the value the user
    picked in the one unkeyed selector (line 191). *)
Record inputs := mk_inputs {
  in_cols : list string;
  in_data : list raw_row;
  in_pick_pie_month : option string }.

Definition title_text : string := "Analytics Reporting Dashboard 📊".

Definition warning_msg : string :=
  "No data found in the `live_dispatches` table. Please check your database connection and table name.".

Definition breakdown_box_label : string := "Select Month for Breakdown".

Definition subtype_box_label : string := "Select a Subtype to view Site Breakdown:".

(** Lines 32-283 on a fetched, non-empty frame. *)
Definition dashboard_body (inp : inputs) (ss : session) (f : frame) : render unit :=
  p <~ rlift (preprocess f) ;;
  section_breakdown p (ss_breakdown_box ss) ~;;
  emit (Markdown "---") ~;;
  section_trend p ~;;
  emit (Markdown "---") ~;;
  section_site_average p ~;;
  emit (Markdown "---") ~;;
  section_subtype p ss (in_pick_pie_month inp) ~;;
  rret tt.

(** One run of the script on the session state [ss] (lines 16-286). *)
Definition dashboard (inp : inputs) (ss : session) : render unit :=
  let ss1 := init_selection ss in
  emit (Title title_text) ~;;
  let f := fetch_data (in_cols inp) (in_data inp) in
  if negb (df_empty f) then dashboard_body inp ss1 f
  else emit (Warning warning_msg).

(** The value of the selector labelled [lbl] drawn in a run, if it was
    drawn. *)
Fixpoint box_value (lbl : string) (els : list element) : option string :=
  match els with
  | [] => None
  | Selectbox l _ v :: els' => if String.eqb l lbl then v else box_value lbl els'
  | _ :: els' => box_value lbl els'
  end.

(** The session state after a run: ['selection'] as the run left it, each
    keyed widget's value when the run drew that widget. *)
Definition after_run (inp : inputs) (ss : session) : session :=
  let els := (dashboard inp ss).1 in
  mk_session (ss_selection (init_selection ss))
    (box_value breakdown_box_label els) (box_value subtype_box_label els).

(** What the user does between runs: reload or change the unkeyed
    widget (a rerun with new inputs), pick a value in one of the keyed
    selectors on the page (the value is stored, then the script reruns),
    or click a slice of the pie.
    The pie's [selection_point] lives in the browser: the chart is drawn
    without [on_select], so a click neither reruns the script nor writes
    the session state. *)
Inductive ui_event :=
| Rerun (inp : inputs)
| PickMonth (v : string) (inp : inputs)
| PickSubtype (v : string) (inp : inputs)
| ClickPie (v : string).

Definition step (ev : ui_event) (ss : session) : session :=
  match ev with
  | Rerun inp => after_run inp ss
  | PickMonth v inp =>
      match ss_breakdown_box ss with
      | Some _ => after_run inp (mk_session (ss_selection ss) (Some v) (ss_subtype_box ss))
      | None => ss
      end
  | PickSubtype v inp =>
      match ss_subtype_box ss with
      | Some _ => after_run inp (mk_session (ss_selection ss) (ss_breakdown_box ss) (Some v))
      | None => ss
      end
  | ClickPie _ => ss
  end.

(** The sessions a browser tab can reach from a fresh one. *)
Inductive reachable : session -> Prop :=
| reach_init : reachable empty_session
| reach_step ev ss : reachable ss -> reachable (step ev ss).

(** ** Example inputs *)

(** The table of the spec's scenario 5, default picks. *)
Definition demo_inputs : inputs := mk_inputs demo_cols demo_rows None.

(** A table with dates and hours but no [Site] column. *)
Definition no_site_inputs : inputs :=
  mk_inputs ["CheckInDate"; "Hours"] [mk_row (JStr "2024-01-05") (JNum 2) None None None] None.

(** A table whose only ticket has a null check-in date. *)
Definition null_date_inputs : inputs :=
  mk_inputs demo_cols [mk_row JNull (JNum 1) (Some "A") None None] None.

(** A table with subtypes and items. *)
Definition demo_sub_inputs : inputs :=
  mk_inputs demo_cols
    [mk_row (JStr "2024-01-05") (JNum 2) (Some "A") (Some "Net") (Some "x");
     mk_row (JStr "2024-01-06") (JNum 2) (Some "B") (Some "Net") (Some "y");
     mk_row (JStr "2024-02-06") (JNum 2) (Some "B") (Some "Pow") (Some "y")] None.

(** ** The page of one run *)

Lemma fetch_nonempty cols r data : df_empty (fetch_data cols (r :: data)) = negb (bool_decide (cols <> [])).
Proof. unfold df_empty, fetch_data. simpl. destruct cols; reflexivity. Qed.

Lemma preprocess_fetch_nonempty cols data p :
  preprocess (fetch_data cols data) = Ok p -> data <> [] -> df_empty (fetch_data cols data) = false.
Proof.
  intros Hp Hne. destruct data as [|r data]; [done|]. rewrite fetch_nonempty.
  unfold preprocess, get_column, has_col in Hp. destruct cols; [|done]. simpl in Hp. discriminate.
Qed.

Lemma preprocess_fetch_rows cols data p :
  preprocess (fetch_data cols data) = Ok p -> data <> [] -> p_rows p <> [].
Proof.
  intros Hp Hne E. destruct (preprocess_rows _ _ Hp) as [Hl _].
  rewrite E in Hl. unfold fetch_data in Hl. simpl in Hl. by destruct data.
Qed.

(** ** The session across reruns *)

(** Creating ['selection'] leaves the keyed widgets' values alone. *)
Lemma init_selection_box ss : ss_subtype_box (init_selection ss) = ss_subtype_box ss.
Proof. unfold init_selection. by destruct (ss_selection ss). Qed.

Lemma init_selection_month_box ss : ss_breakdown_box (init_selection ss) = ss_breakdown_box ss.
Proof. unfold init_selection. by destruct (ss_selection ss). Qed.

(** ['selection'] is absent or [None]. *)
Definition sel_inv (ss : session) : Prop :=
  ss_selection ss = None \/ ss_selection ss = Some SelNone.

Lemma init_selection_inv ss : sel_inv ss -> ss_selection (init_selection ss) = Some SelNone.
Proof. destruct ss as [sel b]. unfold sel_inv, init_selection. simpl. by intros [->| ->]. Qed.

Lemma chart_selection_readable ss : sel_inv ss -> chart_selection (init_selection ss) = Ok None.
Proof.
  intros H. unfold chart_selection. rewrite (init_selection_inv ss H). by destruct (session_truthy _).
Qed.

(** C3: the chart-click path is dead: in every session a tab can reach,
    reading the pie's selection at lines 231-233 gives [None], so the
    subtype selector always opens at index 0 and the selector is the only
    way to choose a subtype (the spec's open question).  By induction on
    the reachable sessions: no event but the first run writes
    ['selection'], and that run writes [None]. *)
Theorem chart_selection_dead ss :
  reachable ss -> chart_selection (init_selection ss) = Ok None.
Proof.
  intros Hr. apply chart_selection_readable. induction Hr as [|ev ss _ IH]; [by left|].
  unfold sel_inv. destruct ev as [inp|v inp|v inp|v]; simpl;
    [|destruct (ss_breakdown_box ss)|destruct (ss_subtype_box ss)|]; auto; right; simpl;
    by apply init_selection_inv.
Qed.

Lemma chart_selection_dead_witness :
  reachable (step (ClickPie "Net") (step (Rerun demo_inputs) empty_session)) /\
  chart_selection (init_selection (step (ClickPie "Net") (step (Rerun demo_inputs) empty_session))) = Ok None.
Proof.
  assert (Hr : reachable (step (ClickPie "Net") (step (Rerun demo_inputs) empty_session)))
    by (apply reach_step, reach_step, reach_init).
  split; [exact Hr|]. exact (chart_selection_dead _ Hr).
Defined.

(** The invariant behind it, for the theorems on runs below. *)
Lemma step_sel_inv ev ss : sel_inv ss -> sel_inv (step ev ss).
Proof.
  intros H. unfold sel_inv. destruct ev as [inp|v inp|v inp|v]; simpl;
    [|destruct (ss_breakdown_box ss)|destruct (ss_subtype_box ss)|]; auto; right; simpl;
    by apply init_selection_inv.
Qed.

Lemma reachable_sel_inv ss : reachable ss -> sel_inv ss.
Proof. induction 1; [by left|by apply step_sel_inv]. Qed.

(** ** A run that raises nothing *)

(** C7: on a table that has the [Site], [Subtype] and [Item] columns,
    whose dates convert and of which some ticket has a date, a run from any
    session a tab can reach raises no exception: every section is drawn
    and the run ends normally. *)
Theorem dashboard_no_exception inp ss p :
  reachable ss -> preprocess (fetch_data (in_cols inp) (in_data inp)) = Ok p ->
  "Site" ∈ p_cols p -> "Subtype" ∈ p_cols p -> "Item" ∈ p_cols p ->
  (exists d, d ∈ p_rows p /\ has_date d = true) ->
  (dashboard inp ss).2 = Ok tt.
Proof.
  intros Hr Hp Hs Hst Hi Hd.
  assert (H : returns (dashboard inp ss) (fun _ => True)).
  { unfold dashboard. returns_steps. destruct (negb _); [|returns_steps].
    unfold dashboard_body. rewrite Hp. returns_steps.
    returns_section section_breakdown_returns. returns_steps.
    returns_section section_trend_returns. returns_steps.
    returns_section section_site_average_returns. returns_steps.
    eapply returns_weaken; [|eapply section_subtype_returns; eauto];
      [intros ? _; returns_steps|].
    apply chart_selection_readable, reachable_sel_inv, Hr. }
  destruct (returns_snd _ _ H) as [[] [E _]]. exact E.
Qed.

Lemma dashboard_no_exception_witness :
  exists p, reachable empty_session /\
  preprocess (fetch_data (in_cols demo_inputs) (in_data demo_inputs)) = Ok p /\
  ("Site" ∈ p_cols p) /\ ("Subtype" ∈ p_cols p) /\ ("Item" ∈ p_cols p) /\
  (exists d, d ∈ p_rows p /\ has_date d = true) /\
  (dashboard demo_inputs empty_session).2 = Ok tt.
Proof.
  pose (p := match preprocess (fetch_data (in_cols demo_inputs) (in_data demo_inputs)) with
             | Ok p => p | Err _ => mk_pframe [] [] end).
  assert (Hp : preprocess (fetch_data (in_cols demo_inputs) (in_data demo_inputs)) = Ok p)
    by (vm_compute; reflexivity).
  assert (Hs : "Site" ∈ p_cols p) by decide_by_eval.
  assert (Hst : "Subtype" ∈ p_cols p) by decide_by_eval.
  assert (Hi : "Item" ∈ p_cols p) by decide_by_eval.
  assert (Hd : exists d, d ∈ p_rows p /\ has_date d = true).
  { exists (default (mk_dispatch None 0 "" None None None) (head (p_rows p))).
    split; [|vm_compute; reflexivity]. apply list_elem_of_In. vm_compute. auto. }
  exists p. split; [exact reach_init|]. split; [exact Hp|]. split; [exact Hs|].
  split; [exact Hst|]. split; [exact Hi|]. split; [exact Hd|].
  exact (dashboard_no_exception demo_inputs empty_session p reach_init Hp Hs Hst Hi Hd).
Defined.

(** ** Runs that stop early *)

(** C20: an empty table shows the title and the warning, and nothing
    else: the sections are not drawn (spec, error class (a)). *)
Theorem empty_table_warning inp ss :
  in_data inp = [] -> dashboard inp ss = ([Title title_text; Warning warning_msg], Ok tt).
Proof. intros H. unfold dashboard, fetch_data, df_empty. by rewrite H. Qed.

Lemma empty_table_warning_witness :
  in_data (mk_inputs demo_cols [] None) = [] /\
  dashboard (mk_inputs demo_cols [] None) empty_session
  = ([Title title_text; Warning warning_msg], Ok tt).
Proof. split; [reflexivity|]. apply empty_table_warning. reflexivity. Defined.

(** C19: a table without a [Site] column is not rejected up front: the
    whole page of the run is the title, the Monthly Breakdown's expander,
    its month selector, both metrics, the rule and the chart's subheader,
    and the run then stops with [KeyError 'Site'] at the [groupby] of
    line 74; nothing of the later sections is drawn. *)
Theorem missing_site_error_order inp ss p :
  preprocess (fetch_data (in_cols inp) (in_data inp)) = Ok p -> in_data inp <> [] ->
  "Site" ∉ p_cols p ->
  let opts := breakdown_month_options (p_rows p) in
  let m := selectbox opts 0 (ss_breakdown_box ss) in
  let sel := select_month (p_rows p) m in
  dashboard inp ss =
    ([Title title_text; Expander "### **Monthly Breakdown**";
      Selectbox "Select Month for Breakdown" opts m;
      Metric "Total Tickets" (nat_str (length sel));
      Metric "Avg Time to Close" (fmt_2f (qmean (map d_Hours sel)) +:+ " hrs");
      Markdown "---"; Subheader ("Tickets Per Site for " +:+ show_opt m)],
     Err (KeyError "Site")).
Proof.
  intros Hp Hne Hs. cbv zeta. unfold dashboard. cbv zeta. rewrite rbind_emit. cbv beta.
  rewrite (preprocess_fetch_nonempty _ _ _ Hp Hne). simpl negb. cbv iota.
  unfold dashboard_body. rewrite Hp, rbind_rlift_Ok. cbv beta. rewrite init_selection_month_box.
  unfold section_breakdown, need_col. rewrite (bool_decide_false ("Site" ∈ p_cols p)) by done.
  reflexivity.
Qed.

Lemma missing_site_error_order_witness :
  exists p, preprocess (fetch_data (in_cols no_site_inputs) (in_data no_site_inputs)) = Ok p /\
  in_data no_site_inputs <> [] /\ ("Site" ∉ p_cols p) /\
  let opts := breakdown_month_options (p_rows p) in
  let m := selectbox opts 0 (ss_breakdown_box empty_session) in
  let sel := select_month (p_rows p) m in
  dashboard no_site_inputs empty_session =
    ([Title title_text; Expander "### **Monthly Breakdown**";
      Selectbox "Select Month for Breakdown" opts m;
      Metric "Total Tickets" (nat_str (length sel));
      Metric "Avg Time to Close" (fmt_2f (qmean (map d_Hours sel)) +:+ " hrs");
      Markdown "---"; Subheader ("Tickets Per Site for " +:+ show_opt m)],
     Err (KeyError "Site")).
Proof.
  pose (p := match preprocess (fetch_data (in_cols no_site_inputs) (in_data no_site_inputs)) with
              | Ok p => p | Err _ => mk_pframe [] [] end).
  assert (Hp : preprocess (fetch_data (in_cols no_site_inputs) (in_data no_site_inputs)) = Ok p)
    by (vm_compute; reflexivity).
  assert (Hs : "Site" ∉ p_cols p) by decide_by_eval.
  exists p. split; [exact Hp|]. split; [discriminate|]. split; [exact Hs|].
  exact (missing_site_error_order no_site_inputs empty_session p Hp ltac:(discriminate) Hs).
Defined.

(** C11: a non-empty table none of whose tickets has a check-in date
    crashes the dashboard: the Monthly Breakdown is drawn, the trend
    section opens its expander, and [pd.Grouper(freq='ME')] raises
    [ValueError] at line 96 (its bin edges are NaT); Sections 3 and 4 are
    never drawn, although the spec says malformed values degrade to
    defaults. *)
Theorem all_dates_null_raise inp ss p :
  preprocess (fetch_data (in_cols inp) (in_data inp)) = Ok p -> in_data inp <> [] ->
  "Site" ∈ p_cols p -> (forall d, d ∈ p_rows p -> has_date d = false) ->
  dashboard inp ss =
    (Title title_text :: (section_breakdown p (ss_breakdown_box ss)).1 ++
       [Markdown "---"; Expander "### **Monthly Trend Analysis**"],
     Err (ValueError nat_edge_msg)).
Proof.
  intros Hp Hne Hs Hd.
  destruct (returns_snd _ _ (section_breakdown_returns p (ss_breakdown_box ss) Hs)) as (b & Eb & _).
  unfold dashboard. cbv zeta. rewrite rbind_emit. cbv beta.
  rewrite (preprocess_fetch_nonempty _ _ _ Hp Hne). simpl negb. cbv iota.
  unfold dashboard_body. rewrite Hp, rbind_rlift_Ok. cbv beta.
  rewrite init_selection_month_box, (rbind_Ok _ _ _ Eb). cbv beta. rewrite rbind_emit. cbv beta.
  rewrite (section_trend_undated p (preprocess_fetch_rows _ _ _ Hp Hne) Hd).
  reflexivity.
Qed.

Lemma all_dates_null_raise_witness :
  exists p, preprocess (fetch_data (in_cols null_date_inputs) (in_data null_date_inputs)) = Ok p /\
  in_data null_date_inputs <> [] /\ ("Site" ∈ p_cols p) /\ (forall d, d ∈ p_rows p -> has_date d = false) /\
  dashboard null_date_inputs empty_session =
    (Title title_text :: (section_breakdown p (ss_breakdown_box empty_session)).1 ++
       [Markdown "---"; Expander "### **Monthly Trend Analysis**"],
     Err (ValueError nat_edge_msg)).
Proof.
  pose (p := match preprocess (fetch_data (in_cols null_date_inputs) (in_data null_date_inputs)) with
              | Ok p => p | Err _ => mk_pframe [] [] end).
  assert (Hp : preprocess (fetch_data (in_cols null_date_inputs) (in_data null_date_inputs)) = Ok p)
    by (vm_compute; reflexivity).
  assert (Hs : "Site" ∈ p_cols p) by decide_by_eval.
  assert (Hd : forall d, d ∈ p_rows p -> has_date d = false).
  { intros d Hd. apply list_elem_of_In in Hd. vm_compute in Hd. destruct Hd as [<-|[]]. reflexivity. }
  exists p. split; [exact Hp|]. split; [discriminate|]. split; [exact Hs|]. split; [exact Hd|].
  exact (all_dates_null_raise null_date_inputs empty_session p Hp ltac:(discriminate) Hs Hd).
Defined.

(** ** The keyed subtype selector keeps the user's pick *)

Definition is_box (lbl : string) (e : element) : Prop :=
  match e with Selectbox l _ _ => l = lbl | _ => False end.

Lemma box_value_app lbl xs ys :
  (forall e, e ∈ xs -> ~ is_box lbl e) -> box_value lbl (xs ++ ys) = box_value lbl ys.
Proof.
  induction xs as [|e xs IH]; intros Hno; [done|]. simpl.
  assert (~ is_box lbl e) as He by (apply Hno; set_solver).
  rewrite <- IH by (intros; apply Hno; set_solver).
  destruct e; try done. simpl in He. destruct (String.eqb_spec label lbl); [done|]. done.
Qed.

(** Split [e ∈ (section).1] into one case per drawn element and show that
    none of them is the subtype selector. *)
Ltac no_subtype_box H :=
  repeat (apply elem_of_rbind_fst in H as [H|(? & ? & H)]);
  simpl in H; rewrite ?list_elem_of_singleton in H;
  first [by apply not_elem_of_nil in H | subst; simpl; discriminate | subst; simpl; tauto].

Lemma sections_no_subtype_box p picked e :
  e ∈ (section_breakdown p picked).1 ++ [Markdown "---"] ++ (section_trend p).1 ++ [Markdown "---"] ++
      (section_site_average p).1 ++ [Markdown "---"] -> ~ is_box subtype_box_label e.
Proof.
  rewrite !elem_of_app, !list_elem_of_singleton.
  intros [H|[->|[H|[->|[H| ->]]]]]; try (simpl; tauto).
  - unfold section_breakdown in H. cbv zeta in H. no_subtype_box H.
  - unfold section_trend in H. no_subtype_box H.
  - unfold section_site_average in H. cbv zeta in H. no_subtype_box H.
Qed.

(** The subtype selector is the first thing of Section 4 with its label. *)
Lemma section_subtype_box p ss pick c :
  "Subtype" ∈ p_cols p -> "Item" ∈ p_cols p -> chart_selection ss = Ok c ->
  let t := subtype_counts (month_filter (filtered_tickets (p_rows p))
             (selectbox (pie_month_options (filtered_tickets (p_rows p))) 0 pick)) in
  box_value subtype_box_label (section_subtype p ss pick).1
  = selectbox (subtype_options t) (initial_index c (subtype_options t)) (ss_subtype_box ss).
Proof.
  intros Hst Hi Hc. unfold section_subtype, need_cols.
  rewrite !filter_cons_False by naive_solver. rewrite filter_nil, Hc. cbv zeta.
  rewrite !rbind_emit_fst, rbind_rlift_Ok, rbind_emit_fst, rbind_rlift_Ok, !rbind_emit_fst.
  reflexivity.
Qed.


(** The elements of a run on a table with the five columns: the title,
    the first three sections with their rules, then Section 4. *)
Lemma dashboard_elements inp ss p c :
  preprocess (fetch_data (in_cols inp) (in_data inp)) = Ok p -> in_data inp <> [] ->
  "Site" ∈ p_cols p -> "Subtype" ∈ p_cols p -> "Item" ∈ p_cols p ->
  (exists d, d ∈ p_rows p /\ has_date d = true) ->
  chart_selection (init_selection ss) = Ok c ->
  exists xs, (forall e, e ∈ xs -> ~ is_box subtype_box_label e) /\
    (dashboard inp ss).1 = xs ++ (section_subtype p (init_selection ss) (in_pick_pie_month inp)).1.
Proof.
  intros Hp Hne Hs Hst Hi Hd Hc.
  destruct (returns_snd _ _ (section_breakdown_returns p (ss_breakdown_box (init_selection ss)) Hs))
    as (a1 & E1 & _).
  destruct (returns_snd _ _ (section_trend_returns p Hd)) as (a2 & E2 & _).
  destruct (returns_snd _ _ (section_site_average_returns p Hs)) as (a3 & E3 & _).
  destruct (returns_snd _ _ (section_subtype_returns p (init_selection ss) (in_pick_pie_month inp) c
                               Hs Hst Hi Hc)) as (a4 & E4 & _).
  eexists (Title title_text :: (section_breakdown p (ss_breakdown_box (init_selection ss))).1 ++
           [Markdown "---"] ++ (section_trend p).1 ++ [Markdown "---"] ++
           (section_site_average p).1 ++ [Markdown "---"]).
  split.
  - intros e [->|He]%elem_of_cons; [simpl; tauto|]. by eapply sections_no_subtype_box.
  - unfold dashboard. cbv zeta. rewrite rbind_emit_fst, (preprocess_fetch_nonempty _ _ _ Hp Hne).
    simpl negb. cbv iota. unfold dashboard_body. rewrite Hp, rbind_rlift_Ok.
    rewrite (rbind_fst_Ok _ _ _ E1), rbind_emit_fst, (rbind_fst_Ok _ _ _ E2), rbind_emit_fst,
      (rbind_fst_Ok _ _ _ E3), rbind_emit_fst, (rbind_fst_Ok _ _ _ E4).
    cbv beta. cbv [rret fst]. rewrite app_nil_r, <- app_comm_cons, <- !app_assoc. reflexivity.
Qed.

(** C8: the subtype the user picks in the keyed selector is the one the
    next run shows and the session keeps, whenever it is one of the
    selector's options and the run reaches the selector (which needs a
    dated ticket): the selector is the one way to choose a subtype, and it
    works. *)
Theorem pick_subtype_kept inp ss v b p :
  reachable ss -> ss_subtype_box ss = Some b ->
  preprocess (fetch_data (in_cols inp) (in_data inp)) = Ok p -> in_data inp <> [] ->
  "Site" ∈ p_cols p -> "Subtype" ∈ p_cols p -> "Item" ∈ p_cols p ->
  (exists d, d ∈ p_rows p /\ has_date d = true) ->
  v ∈ subtype_options (subtype_counts (month_filter (filtered_tickets (p_rows p))
        (selectbox (pie_month_options (filtered_tickets (p_rows p))) 0 (in_pick_pie_month inp)))) ->
  ss_subtype_box (step (PickSubtype v inp) ss) = Some v.
Proof.
  intros Hr Hb Hp Hne Hs Hst Hi Hd Hv. simpl. rewrite Hb.
  set (ss' := mk_session (ss_selection ss) (ss_breakdown_box ss) (Some v)).
  assert (Hc : chart_selection (init_selection ss') = Ok None)
    by (apply chart_selection_readable, (reachable_sel_inv ss Hr)).
  destruct (dashboard_elements inp ss' p None Hp Hne Hs Hst Hi Hd Hc) as (xs & Hxs & E).
  unfold after_run. simpl. rewrite E, box_value_app by exact Hxs.
  rewrite (section_subtype_box _ _ _ None Hst Hi Hc). cbv zeta.
  rewrite init_selection_box. simpl. unfold selectbox. by rewrite bool_decide_true.
Qed.

Lemma pick_subtype_kept_witness :
  exists p, reachable (step (Rerun demo_sub_inputs) empty_session) /\
  ss_subtype_box (step (Rerun demo_sub_inputs) empty_session) = Some "All Subtypes" /\
  preprocess (fetch_data (in_cols demo_sub_inputs) (in_data demo_sub_inputs)) = Ok p /\
  in_data demo_sub_inputs <> [] /\
  ("Site" ∈ p_cols p) /\ ("Subtype" ∈ p_cols p) /\ ("Item" ∈ p_cols p) /\
  (exists d, d ∈ p_rows p /\ has_date d = true) /\
  "Pow" ∈ subtype_options (subtype_counts (month_filter (filtered_tickets (p_rows p))
        (selectbox (pie_month_options (filtered_tickets (p_rows p))) 0 (in_pick_pie_month demo_sub_inputs)))) /\
  ss_subtype_box (step (PickSubtype "Pow" demo_sub_inputs) (step (Rerun demo_sub_inputs) empty_session))
  = Some "Pow".
Proof.
  pose (p := match preprocess (fetch_data (in_cols demo_sub_inputs) (in_data demo_sub_inputs)) with
             | Ok p => p | Err _ => mk_pframe [] [] end).
  assert (Hr : reachable (step (Rerun demo_sub_inputs) empty_session)) by apply reach_step, reach_init.
  assert (Hb : ss_subtype_box (step (Rerun demo_sub_inputs) empty_session) = Some "All Subtypes")
    by (vm_compute; reflexivity).
  assert (Hp : preprocess (fetch_data (in_cols demo_sub_inputs) (in_data demo_sub_inputs)) = Ok p)
    by (vm_compute; reflexivity).
  assert (Hne : in_data demo_sub_inputs <> []) by discriminate.
  assert (Hs : "Site" ∈ p_cols p) by decide_by_eval.
  assert (Hst : "Subtype" ∈ p_cols p) by decide_by_eval.
  assert (Hi : "Item" ∈ p_cols p) by decide_by_eval.
  assert (Hd : exists d, d ∈ p_rows p /\ has_date d = true).
  { exists (default (mk_dispatch None 0 "" None None None) (head (p_rows p))).
    split; [|vm_compute; reflexivity]. apply list_elem_of_In. vm_compute. auto. }
  assert (Hv : "Pow" ∈ subtype_options (subtype_counts (month_filter (filtered_tickets (p_rows p))
        (selectbox (pie_month_options (filtered_tickets (p_rows p))) 0 (in_pick_pie_month demo_sub_inputs)))))
    by decide_by_eval.
  exists p. split_and!; try assumption.
  exact (pick_subtype_kept demo_sub_inputs _ "Pow" "All Subtypes" p Hr Hb Hp Hne Hs Hst Hi Hd Hv).
Defined.
